(** * Invoice generator (main.py): collector and renderer

    A shallow embedding of [get_items], [get_invoice_details] and
    [create_invoice] of [main.py], and the properties of the written
    specification stated over it.

    Conventions of the embedding:
    - a Python [str] is a [string] holding its UTF-8 encoding: [Str.len]
      counts characters, not bytes; the case mappings of [Str] and the
      white space and digits of [F64.of_str] are the ASCII ones (the work
      types of [DEFAULT_RATES] and every literal of the program are ASCII),
      and the statements made for every hours text take the builtin [float]
      as a parameter of the collector ([get_items_with]);
    - a Python [float] is a binary64 value, a [spec_float] operated on with
      precision 53 and maximal exponent 1024, rounding to nearest even;
    - [input] and [print] act on a [world] holding the lines still to be
      read and the text written so far;
    - the workbook is the map of the cells of its one sheet together with
      the column widths; a cell keeps the value it is given (openpyxl's own
      checks on cell text, which refuse control characters and cut text
      after 32767 characters, are not part of the model);
    - the file is represented by the returned file name and workbook;
      opening and writing it depend on the file system and are not part of
      the model, so that [create_invoice] returning here is necessary for
      the program to complete, not sufficient. *)

From Stdlib Require Import ZArith Znumtheory Ascii String List Lia.
From Stdlib Require Import SpecFloat.
From stdpp Require Import base gmap strings list pretty.

(** ** Exceptions and results *)

Inductive exn : Type :=
  | EOFError
  | ValueError
  | OverflowError
  | ZeroDivisionError
  | KeyError (key : string).

Inductive result (A : Type) : Type :=
  | Ok (a : A)
  | Raise (e : exn).
Arguments Ok {A} a.
Arguments Raise {A} e.

#[export] Instance result_ret : MRet result := λ A a, Ok a.
#[export] Instance result_bind : MBind result := λ A B k r,
  match r with
  | Ok a => k a
  | Raise e => Raise e
  end.

Definition is_ok {A} (r : result A) : bool :=
  match r with Ok _ => true | Raise _ => false end.

(** ** Python strings *)

Module Str.

Definition code (c : ascii) : N := N_of_ascii c.

Definition is_upper (c : ascii) : bool := ((65 <=? code c) && (code c <=? 90))%N.
Definition is_lower (c : ascii) : bool := ((97 <=? code c) && (code c <=? 122))%N.
Definition is_digit (c : ascii) : bool := ((48 <=? code c) && (code c <=? 57))%N.
Definition is_cased (c : ascii) : bool := is_upper c || is_lower c.

(** [Py_ISSPACE]: space, tab, line feed, vertical tab, form feed,
    carriage return. *)
Definition is_space (c : ascii) : bool :=
  ((9 <=? code c) && (code c <=? 13) || (code c =? 32))%N.

Definition to_lower (c : ascii) : ascii :=
  if is_upper c then ascii_of_N (code c + 32) else c.
Definition to_upper (c : ascii) : ascii :=
  if is_lower c then ascii_of_N (code c - 32) else c.

(** [s.lower()], for the ASCII letters. *)
Fixpoint lower (s : string) : string :=
  match s with
  | EmptyString => EmptyString
  | String c s' => String (to_lower c) (lower s')
  end.

(** [s.title()], for a text of ASCII characters: a cased character is
    upper-cased when it follows an uncased one (or starts the string) and
    lower-cased otherwise. *)
Fixpoint title_go (previous_is_cased : bool) (s : string) : string :=
  match s with
  | EmptyString => EmptyString
  | String c s' =>
      String (if previous_is_cased then to_lower c else to_upper c)
             (title_go (is_cased c) s')
  end.
Definition title (s : string) : string := title_go false s.

Fixpoint is_prefix (p s : string) : option string :=
  match p, s with
  | EmptyString, _ => Some s
  | String a p', String b s' => if Ascii.eqb a b then is_prefix p' s' else None
  | String _ _, EmptyString => None
  end.

(** [s.replace(old, new)] for a non-empty [old]: the occurrences of [old]
    are found from left to right, without overlap. [fuel] bounds the
    number of characters left to look at. *)
Fixpoint replace_go (fuel : nat) (old new s : string) : string :=
  match fuel with
  | O => s
  | S fuel' =>
      match is_prefix old s with
      | Some rest =>
          new +:+ replace_go fuel' old new rest
      | None =>
          match s with
          | EmptyString => EmptyString
          | String c s' => String c (replace_go fuel' old new s')
          end
      end
  end.
Definition replace (old new s : string) : string :=
  replace_go (String.length s) old new s.

(** The characters of a text held in UTF-8: a byte below 128 is a
    character of its own, a byte from 192 on starts a character, and the
    bytes from 128 to 191 continue the character that was started;
    [pending] is the character being read. *)
Definition lead_bits (n : N) : N :=
  (if n <? 224 then n - 192 else if n <? 240 then n - 224 else n - 240)%N.

Fixpoint code_points_go (pending : option N) (s : string) : list N :=
  match s with
  | EmptyString => option_list pending
  | String b s' =>
      let n := code b in
      if (n <? 128)%N then option_list pending ++ n :: code_points_go None s'
      else if (n <? 192)%N then
        match pending with
        | Some c => code_points_go (Some (c * 64 + (n - 128))%N) s'
        | None => code_points_go None s'
        end
      else option_list pending ++ code_points_go (Some (lead_bits n)) s'
  end.
Definition code_points (s : string) : list N := code_points_go None s.

(** [len(s)]: the number of characters. *)
Definition len (s : string) : nat := length (code_points s).

(** A byte of an ASCII character. *)
Definition is_ascii (c : ascii) : bool := (code c <? 128)%N.

(** [format(n, "02")] for an integer [n]: the sign, then the digits
    padded with zeros on the left to a total width of two. *)
Definition format_02 (n : Z) : string :=
  match n with
  | Zneg p => "-" +:+ pretty (Npos p)
  | _ => if (n <? 10)%Z then "0" +:+ pretty n else pretty n
  end.

(** [x.strftime] fields: a natural number padded with zeros to [w]
    digits. *)
Definition zero_pad (w : nat) (s : string) : string :=
  match w - String.length s with
  | O => s
  | S k => string_of_list_ascii (repeat "0"%char (S k)) +:+ s
  end.

End Str.

(** ** Python floats: binary64 *)

Module F64.

Definition prec : Z := 53.
Definition emax : Z := 1024.

Abbreviation float := spec_float.

Definition zero : float := S754_zero false.
Definition nan : float := S754_nan.
Definition inf : float := S754_infinity false.

(** [x * y] and [x + y] *)
Definition mul (x y : float) : float := SFmul prec emax x y.
Definition add (x y : float) : float := SFadd prec emax x y.

(** The float nearest to [n / d], with sign [s]: the conversion of an
    integer ([d = 1]) and of a decimal numeral ([d] a power of ten). *)
Definition of_ratio (s : bool) (n d : positive) : float :=
  let '(q, e, l) := SFdiv_core_binary prec emax (Zpos n) 0 (Zpos d) 0 in
  binary_round_aux prec emax s q e l.

(** [float(n)] for an integer, as in [h * 60] and [x % 60]. *)
Definition of_Z (n : Z) : float :=
  match n with
  | Z0 => zero
  | Zpos p => of_ratio false p 1
  | Zneg p => of_ratio true p 1
  end.

Definition is_nan (x : float) : bool :=
  match x with S754_nan => true | _ => false end.
Definition is_finite (x : float) : bool :=
  match x with S754_zero _ | S754_finite _ _ _ => true | _ => false end.
Definition sign_bit (x : float) : bool :=
  match x with
  | S754_zero s | S754_infinity s | S754_finite s _ _ => s
  | S754_nan => false
  end.

(** [x < 0.0] *)
Definition ltb_zero (x : float) : bool := SFltb x zero.

(** C's [fmod(x, y)]: the remainder of the truncated division, exact,
    with the sign of [x]. *)
Definition fmod (x y : float) : float :=
  match x, y with
  | S754_nan, _ | _, S754_nan => nan
  | S754_infinity _, _ => nan
  | _, S754_zero _ => nan
  | _, S754_infinity _ => x
  | S754_zero _, _ => x
  | S754_finite sx mx ex, S754_finite _ my ey =>
      let ez := Z.min ex ey in
      let r := (Zpos (fst (shl_align mx ex ez)) mod Zpos (fst (shl_align my ey ez)))%Z in
      match r with
      | Z0 => S754_zero sx
      | _ => binary_normalize prec emax (cond_Zopp sx r) ez sx
      end
  end.

(** [v % w] on floats ([float_rem] of CPython): [fmod], then the result
    is given the sign of the divisor. *)
Definition rem (v w : float) : result float :=
  if SFeqb w zero then Raise ZeroDivisionError
  else
    let mod_ := fmod v w in
    if negb (SFeqb mod_ zero) then
      if negb (Bool.eqb (ltb_zero w) (ltb_zero mod_))
      then Ok (add mod_ w)
      else Ok mod_
    else Ok (S754_zero (sign_bit w)).

(** [int(x)]: truncation towards zero. *)
Definition to_int (x : float) : result Z :=
  match x with
  | S754_nan => Raise ValueError
  | S754_infinity _ => Raise OverflowError
  | S754_zero _ => Ok 0%Z
  | S754_finite s m e => Ok (cond_Zopp s (Z.shiftl (Zpos m) e))
  end.

(** The largest integer not above [x], for the formulas of the
    specification. *)
Definition floor (x : float) : option Z :=
  match x with
  | S754_nan | S754_infinity _ => None
  | S754_zero _ => Some 0%Z
  | S754_finite s m e => Some (Z.shiftl (cond_Zopp s (Zpos m)) e)
  end.

(** The integer nearest to [100 * x] in magnitude, ties to even: the
    hundredths shown by the format [.2f]. *)
Definition cents (m : positive) (e : Z) : Z :=
  match e with
  | Zneg p =>
      let num := (Zpos m * 100)%Z in
      let den := Z.pow_pos 2 p in
      let q := (num / den)%Z in
      let r := (num mod den)%Z in
      match (2 * r ?= den)%Z with
      | Lt => q
      | Gt => (q + 1)%Z
      | Eq => if Z.even q then q else (q + 1)%Z
      end
  | _ => (Zpos m * 2 ^ e * 100)%Z
  end.

Definition two_digits (n : Z) : string :=
  if (n <? 10)%Z then "0" +:+ pretty n else pretty n.

Definition fixed2 (c : Z) : string :=
  pretty (c / 100)%Z +:+ "." +:+ two_digits (c mod 100)%Z.

(** [format(x, ".2f")] *)
Definition format_2f (x : float) : string :=
  match x with
  | S754_nan => "nan"
  | S754_infinity s => if s then "-inf" else "inf"
  | S754_zero s => if s then "-0.00" else "0.00"
  | S754_finite s m e => (if s then "-" else "") +:+ fixed2 (cents m e)
  end.

(** *** [float(text)] *)

Fixpoint lstrip (s : string) : string :=
  match s with
  | String c s' => if Str.is_space c then lstrip s' else s
  | EmptyString => s
  end.
Definition strip (s : string) : string :=
  String.rev (lstrip (String.rev (lstrip s))).

(** An underscore is accepted between two digits only, and is dropped. *)
Fixpoint drop_underscores (prev : ascii) (s : string) : option string :=
  match s with
  | EmptyString => if Ascii.eqb prev "_" then None else Some EmptyString
  | String c s' =>
      if Ascii.eqb c "_" then
        if Str.is_digit prev then drop_underscores c s' else None
      else if Ascii.eqb prev "_" && negb (Str.is_digit c) then None
      else String c <$> drop_underscores c s'
  end.

(** The leading digits of [s], read as a number that continues [acc],
    how many there are, and the rest of [s]. *)
Fixpoint digits (acc : N) (count : nat) (s : string) : N * nat * string :=
  match s with
  | String c s' =>
      if Str.is_digit c
      then digits (10 * acc + (Str.code c - 48))%N (S count) s'
      else (acc, count, s)
  | EmptyString => (acc, count, s)
  end.

Definition take_sign (s : string) : bool * string :=
  match s with
  | String "-" s' => (true, s')
  | String "+" s' => (false, s')
  | _ => (false, s)
  end.

(** A decimal numeral: digits with an optional point and at least one
    digit, then an optional exponent. The result is the pair [(m, e)] of
    the numeral [m * 10 ^ e]. *)
Definition parse_decimal (s : string) : option (N * Z) :=
  let '(ip, n1, r1) := digits 0 0 s in
  let '(m, n2, r2) :=
    match r1 with
    | String "." r => digits ip 0 r
    | _ => (ip, 0%nat, r1)
    end in
  if Nat.eqb (n1 + n2) 0 then None
  else
    match r2 with
    | EmptyString => Some (m, (- Z.of_nat n2)%Z)
    | String c r3 =>
        if Ascii.eqb c "e" || Ascii.eqb c "E" then
          let '(es, r4) := take_sign r3 in
          let '(ev, n3, r5) := digits 0 0 r4 in
          if Nat.eqb n3 0 then None
          else
            match r5 with
            | EmptyString =>
                Some (m, (cond_Zopp es (Z.of_N ev) - Z.of_nat n2)%Z)
            | _ => None
            end
        else None
    end.

Definition of_decimal (s : bool) (m : N) (e : Z) : float :=
  match m with
  | N0 => S754_zero s
  | Npos p =>
      match e with
      | Zneg k => of_ratio s p (Pos.pow 10 k)
      | Z0 => of_ratio s p 1
      | Zpos k => of_ratio s (p * Pos.pow 10 k) 1
      end
  end.

(** [float(text)], for a text of ASCII characters: white space is
    stripped, then the text is a signed [inf], [infinity] or [nan] in any
    case, or a signed decimal numeral; anything else raises [ValueError].
    (Beyond ASCII the builtin also reads the decimal digits and the white
    space of Unicode; a text with such characters is refused here.) *)
Definition of_str (text : string) : result float :=
  match drop_underscores "000" (strip text) with
  | None => Raise ValueError
  | Some s =>
      let '(sg, body) := take_sign s in
      let word := Str.lower body in
      if String.eqb word "inf" || String.eqb word "infinity"
      then Ok (S754_infinity sg)
      else if String.eqb word "nan" then Ok nan
      else
        match parse_decimal body with
        | Some (m, e) => Ok (of_decimal sg m e)
        | None => Raise ValueError
        end
  end.

End F64.

Abbreviation float := spec_float.

(** ** Standard input and output *)

Record world : Type := World {
  stdin : list string;    (* the lines still to be read *)
  stdout : list string    (* what was written, oldest first *)
}.

(** A computation that reads and writes, and returns or raises. *)
Definition io (A : Type) : Type := world → result A * world.

#[export] Instance io_ret : MRet io := λ A a w, (Ok a, w).
#[export] Instance io_bind : MBind io := λ A B k m w,
  match m w with
  | (Ok a, w') => k a w'
  | (Raise e, w') => (Raise e, w')
  end.

Definition raise {A} (e : exn) : io A := λ w, (Raise e, w).

Definition lift {A} (r : result A) : io A := λ w, (r, w).

(** [print(text)] *)
Definition print (text : string) : io () :=
  λ w, (Ok (), World (stdin w) (stdout w ++ [text])).

(** [input(prompt)]: the prompt is written, then a line is read; at the
    end of the input [EOFError] is raised. *)
Definition input (prompt : string) : io string :=
  λ w,
    let out := stdout w ++ [prompt] in
    match stdin w with
    | [] => (Raise EOFError, World [] out)
    | line :: rest => (Ok line, World rest out)
    end.

(** [try: body except ValueError: handler] *)
Definition try_except_ValueError {A} (body handler : io A) : io A :=
  λ w,
    match body w with
    | (Raise ValueError, w') => handler w'
    | r => r
    end.

(** ** Dictionaries with string keys, in insertion order *)

Module Dict.

Definition t (V : Type) : Type := list (string * V).

(** [d.keys()] *)
Definition keys {V} (d : t V) : list string := d.*1.

(** [d[k]] *)
Fixpoint getitem {V} (d : t V) (k : string) : result V :=
  match d with
  | [] => Raise (KeyError k)
  | (k', v) :: d' => if String.eqb k' k then Ok v else getitem d' k
  end.

(** A dictionary holds a key once. *)
Definition wf {V} (d : t V) : Prop := NoDup (keys d).

End Dict.

(** ** The collector *)

(** One line item: the dictionary with the keys ["Type of Work"],
    ["Hours"], ["Hourly Rate"] and ["Total Price"]. *)
Record item : Type := Item {
  Type_of_Work : string;
  Hours : float;
  Hourly_Rate : float;
  Total_Price : float
}.

Definition DEFAULT_RATES : Dict.t float :=
  [ ("audiobook editing", F64.of_Z 50);
    ("audiobook proofing", F64.of_Z 25);
    ("extra editing", F64.of_Z 50) ].

(** The answer to "Did you perform ...?" counts as a yes. *)
Definition performed_yes (answer : string) : bool :=
  String.eqb (Str.lower answer) "yes".

(** The body of the [for] loop of [get_items], for one work type; [items]
    is the list built so far. The builtin [float] is the parameter
    [to_float]: what it accepts beyond ASCII text depends on the tables of
    the Unicode database, which are no part of the program. *)
Definition get_items_step_with (to_float : string → result float)
    (rates_dict : Dict.t float) (items : list item)
    (work_type : string) : io (list item) :=
  performed ← input ("Did you perform: " +:+ work_type +:+ "? ");
  if performed_yes performed then
    try_except_ValueError
      (text ← input "Enter hours: ";
       hours ← lift (to_float text);
       rate ← lift (Dict.getitem rates_dict work_type);
       let total_price := F64.mul hours rate in
       mret (items ++ [Item work_type hours rate total_price]))
      (_ ← print "Invalid input for hours. Please enter a numeric value.";
       mret items)
  else mret items.

Fixpoint get_items_loop_with (to_float : string → result float)
    (rates_dict : Dict.t float) (work_types : list string)
    (items : list item) : io (list item) :=
  match work_types with
  | [] => mret items
  | work_type :: rest =>
      items' ← get_items_step_with to_float rates_dict items work_type;
      get_items_loop_with to_float rates_dict rest items'
  end.

Definition get_items_with (to_float : string → result float)
    (rates_dict : Dict.t float) : io (list item) :=
  get_items_loop_with to_float rates_dict (Dict.keys rates_dict) [].

(** [get_items] with [float] read as [F64.of_str]. *)
Definition get_items_step : Dict.t float → list item → string → io (list item) :=
  get_items_step_with F64.of_str.
Definition get_items_loop
    : Dict.t float → list string → list item → io (list item) :=
  get_items_loop_with F64.of_str.
Definition get_items : Dict.t float → io (list item) :=
  get_items_with F64.of_str.

(** The invoice details: the dictionary returned by [get_invoice_details]. *)
Record invoice_details : Type := InvoiceDetails {
  customer_name : string;
  customer_address : string;
  invoice_date : string;
  book_title : string;
  items : list item
}.

Definition get_invoice_details : io invoice_details :=
  customer_name ← input "Enter customer name: ";
  customer_address ← input "Enter customer address: ";
  invoice_date ← input "Enter invoice date (YYYY-MM-DD): ";
  book_title ← input "Enter the title of the book: ";
  items_list ← get_items DEFAULT_RATES;
  mret (InvoiceDetails customer_name customer_address invoice_date book_title
          items_list).

(** ** The renderer *)

(** The biller identity read from the environment by [os.getenv]: a
    variable that is not set reads as [None]. *)
Record environ : Type := Environ {
  NAME : option string;
  ADDRESS : option string;
  CITY_STATE_ZIP : option string;
  SOCIAL_HANDLE : option string
}.

(** The date part of [datetime.now()]; the two calls made while an invoice
    is rendered read the same date. *)
Record datetime : Type := Datetime {
  year : N;
  month : N;
  day : N
}.

(** [now.strftime("%Y%m%d")] *)
Definition strftime_Ymd (now : datetime) : string :=
  Str.zero_pad 4 (pretty (year now)) +:+ Str.zero_pad 2 (pretty (month now))
    +:+ Str.zero_pad 2 (pretty (day now)).

(** [now.strftime("%m-%d-%y")] *)
Definition strftime_mdy (now : datetime) : string :=
  Str.zero_pad 2 (pretty (month now)) +:+ "-" +:+ Str.zero_pad 2 (pretty (day now))
    +:+ "-" +:+ Str.zero_pad 2 (pretty (year now `mod` 100)%N).

(** The value of a cell: [None] or a string. *)
Inductive value : Type :=
  | VNone
  | VStr (s : string).

#[export] Instance value_eq_dec : EqDecision value.
Proof. solve_decision. Defined.

Definition of_env (v : option string) : value :=
  match v with
  | Some s => VStr s
  | None => VNone
  end.

(** The cells of the sheet, by row and column, both counted from 1. *)
Abbreviation sheet := (gmap (nat * nat) value).

Record workbook : Type := Workbook {
  cells : sheet;
  column_widths : gmap string nat
}.

(** [sheet.cell(row=row, column=column, value=v)] *)
Definition set_cell (row column : nat) (v : value) (sh : sheet) : sheet :=
  <[(row, column) := v]> sh.

(** The coordinate of a reference such as ["D3"], for the columns [A]
    to [Z]. *)
Definition coordinate (ref : string) : nat * nat :=
  match ref with
  | String c digits =>
      (N.to_nat (F64.digits 0 0 digits).1.1, N.to_nat (Str.code c - 64))
  | EmptyString => (0, 0)%nat
  end.

(** [sheet[ref] = v] *)
Definition set_ref (ref : string) (v : value) (sh : sheet) : sheet :=
  set_cell (coordinate ref).1 (coordinate ref).2 v sh.

(** [df = pd.DataFrame(items); df["Total Price"]]: a frame built from an
    empty list has no column at all. *)
Definition total_price_column (items : list item) : result (list float) :=
  match items with
  | [] => Raise (KeyError "Total Price")
  | _ => Ok (Total_Price <$> items)
  end.

(** numpy's pairwise summation ([pairwise_sum] of the add loops), which
    [Series.sum] comes down to for a column of floats.  Fewer than eight
    values are added from the first to the last. *)
Definition sum_short (a : list float) : float := fold_left F64.add a F64.zero.

(** From eight values on, eight running sums [r[0]] to [r[7]] take the
    values of each full block of eight: [r[j] += a[i + j]].  The result is
    the eight sums and the values left, fewer than eight. *)
Fixpoint sum_blocks (r a : list float) : list float * list float :=
  match a with
  | a0 :: a1 :: a2 :: a3 :: a4 :: a5 :: a6 :: a7 :: rest =>
      sum_blocks (zip_with F64.add r [a0; a1; a2; a3; a4; a5; a6; a7]) rest
  | _ => (r, a)
  end.

(** [((r[0] + r[1]) + (r[2] + r[3])) + ((r[4] + r[5]) + (r[6] + r[7]))] *)
Definition sum_tree (r : list float) : float :=
  match r with
  | [r0; r1; r2; r3; r4; r5; r6; r7] =>
      F64.add (F64.add (F64.add r0 r1) (F64.add r2 r3))
              (F64.add (F64.add r4 r5) (F64.add r6 r7))
  | _ => F64.zero
  end.

(** A block of 8 to 128 values: the eight sums are combined, then the
    values left are added one by one. *)
Definition sum_unrolled (a : list float) : float :=
  let '(r, rest) := sum_blocks (take 8 a) (drop 8 a) in
  fold_left F64.add rest (sum_tree r).

(** More than 128 values are split in two halves, the first of a length
    that is a multiple of eight; [fuel] bounds the depth of the
    splitting. *)
Fixpoint pairwise_sum (fuel : nat) (a : list float) : float :=
  let n := length a in
  if (n <? 8)%nat then sum_short a
  else if (n <=? 128)%nat then sum_unrolled a
  else
    match fuel with
    | O => sum_unrolled a
    | S fuel' =>
        let n2 := (n `div` 2 - (n `div` 2) `mod` 8)%nat in
        F64.add (pairwise_sum fuel' (take n2 a)) (pairwise_sum fuel' (drop n2 a))
    end.

(** [column.sum()]: a NaN counts as zero ([skipna]), and the values are
    added to the initial zero by pairwise summation. *)
Definition series_sum (column : list float) : float :=
  F64.add F64.zero
    (pairwise_sum (length column)
       ((λ v, if F64.is_nan v then F64.zero else v) <$> column)).

(** The Total Run Time text of the f-string of line 140. *)
Definition run_time (hours : float) : result string :=
  h ← F64.to_int hours;
  minutes ← F64.rem (F64.mul hours (F64.of_Z 60)) (F64.of_Z 60);
  m ← F64.to_int minutes;
  seconds ← F64.rem (F64.mul hours (F64.of_Z 3600)) (F64.of_Z 60);
  s ← F64.to_int seconds;
  mret (Str.format_02 h +:+ ":" +:+ Str.format_02 m +:+ ":" +:+ Str.format_02 s).

(** [f"${x:.2f}"] *)
Definition currency (x : float) : string := "$" +:+ F64.format_2f x.

Definition itemized_header : list string :=
  ["Date"; "Description"; "Total Run Time"; "Rate"; "Total"].

(** The loop over [enumerate(itemized_header, 1)]. *)
Fixpoint write_header (col_num : nat) (headers : list string) (sh : sheet)
    : sheet :=
  match headers with
  | [] => sh
  | header :: rest =>
      write_header (S col_num) rest (set_cell 9 col_num (VStr header) sh)
  end.

(** The loop over [items]: one row each, from [row_num] on; the result
    is the sheet and the row after the last one written. *)
Fixpoint write_items (invoice_date : string) (items : list item)
    (row_num : nat) (sh : sheet) : result (sheet * nat) :=
  match items with
  | [] => Ok (sh, row_num)
  | item :: rest =>
      let sh := set_cell row_num 1 (VStr invoice_date) sh in
      let sh := set_cell row_num 2 (VStr (Str.title (Type_of_Work item))) sh in
      time ← run_time (Hours item);
      let sh := set_cell row_num 3 (VStr time) sh in
      let sh := set_cell row_num 4 (VStr (currency (Hourly_Rate item))) sh in
      let sh := set_cell row_num 5 (VStr (currency (Total_Price item))) sh in
      write_items invoice_date rest (S row_num) sh
  end.

(** [sheet.max_row] and [sheet.max_column] *)
Definition max_row (sh : sheet) : nat := max_list ((map_to_list sh).*1.*1).
Definition max_column (sh : sheet) : nat := max_list ((map_to_list sh).*1.*2).

(** [get_column_letter(col_idx)] *)
Definition get_column_letter (col_idx : nat) : result string :=
  let letter (n : nat) : string :=
    String (ascii_of_nat (n + 64)) EmptyString in
  let step (col_idx : nat) : nat * nat :=
    let q := (col_idx `div` 26)%nat in
    let r := (col_idx `mod` 26)%nat in
    if Nat.eqb r 0 then (q - 1, 26)%nat else (q, r) in
  if (1 <=? N.of_nat col_idx)%N && (N.of_nat col_idx <=? 18278)%N then
    let '(c1, r1) := step col_idx in
    if Nat.eqb c1 0 then Ok (letter r1)
    else
      let '(c2, r2) := step c1 in
      if Nat.eqb c2 0 then Ok (letter r2 +:+ letter r1)
      else
        let '(_, r3) := step c2 in
        Ok (letter r3 +:+ letter r2 +:+ letter r1)
  else Raise ValueError.

(** [if cell.value:] *)
Definition truthy (v : value) : bool :=
  match v with
  | VStr (String _ _) => true
  | _ => false
  end.

(** [str(cell.value)] *)
Definition str (v : value) : string :=
  match v with
  | VStr s => s
  | VNone => "None"
  end.

(** The cells of column [column], from row 1 to the last row; a cell
    never written has no value. *)
Definition column_cells (sh : sheet) (column : nat) : list value :=
  (λ row, default VNone (sh !! (row, column))) <$> seq 1 (max_row sh).

(** The inner loop of the width adjustment. *)
Definition max_length_of (col : list value) : nat :=
  fold_left
    (λ max_length cell,
       if truthy cell then max_length `max` Str.len (str cell) else max_length)
    col 0%nat.

(** The loop over [sheet.columns]. *)
Fixpoint adjust_widths (sh : sheet) (columns : list nat)
    (widths : gmap string nat) : result (gmap string nat) :=
  match columns with
  | [] => Ok widths
  | col :: rest =>
      let max_length := max_length_of (column_cells sh col) in
      column ← get_column_letter col;
      adjust_widths sh rest (<[column := (max_length + 2)%nat]> widths)
  end.

(** "Add header information": the biller block, the bill-to block and
    the invoice block, at fixed cells. *)
Definition add_header_information (env : environ) (now : datetime)
    (customer_name customer_address invoice_date : string) (sh : sheet)
    : sheet :=
  let sh := set_ref "A1" (of_env (NAME env)) sh in
  let sh := set_ref "A2" (of_env (ADDRESS env)) sh in
  let sh := set_ref "A3" (of_env (CITY_STATE_ZIP env)) sh in
  let sh := set_ref "A4" (of_env (SOCIAL_HANDLE env)) sh in
  let sh := set_ref "A6" (VStr "Bill To:") sh in
  let sh := set_ref "B6" (VStr customer_name) sh in
  let sh := set_ref "B7" (VStr customer_address) sh in
  let sh := set_ref "D1" (VStr "INVOICE") sh in
  let sh := set_ref "D3" (VStr "INVOICE NUMBER") sh in
  let sh := set_ref "E3" (VStr ("KG " +:+ strftime_mdy now)) sh in
  let sh := set_ref "D4" (VStr "INVOICE DATE") sh in
  set_ref "E4" (VStr invoice_date) sh.

(** "Add total amount at the end": the total and the payment
    instructions, below the row [row_num] that follows the last item. *)
Definition add_total_amount (env : environ) (total_amount : float)
    (row_num : nat) (sh : sheet) : sheet :=
  let sh := set_cell (row_num + 1) 4 (VStr "TOTAL") sh in
  let sh := set_cell (row_num + 1) 5 (VStr (currency total_amount)) sh in
  let sh := set_cell (row_num + 2) 5 (VStr "Please Pay") sh in
  let sh := set_cell (row_num + 4) 2 (VStr "Make All Checks Payable To:") sh in
  let sh := set_cell (row_num + 5) 2 (of_env (NAME env)) sh in
  let sh := set_cell (row_num + 6) 2 (of_env (ADDRESS env)) sh in
  set_cell (row_num + 7) 2 (of_env (CITY_STATE_ZIP env)) sh.

(** The file name of line 93. *)
Definition invoice_filename (customer_name invoice_date timestamp : string)
    : string :=
  "invoice_" +:+ Str.replace " " "_" customer_name +:+ "_" +:+ invoice_date
    +:+ "_" +:+ timestamp +:+ ".xlsx".

(** [create_invoice]: the frame and its sum, the file name, then the
    sheet, block by block, and the column widths.  What the file system
    and openpyxl may refuse (a file that cannot be opened, a control
    character in a cell text) is not represented. *)
Definition create_invoice (env : environ) (now : datetime)
    (details : invoice_details) : result (string * workbook) :=
  let customer_name := customer_name details in
  let customer_address := customer_address details in
  let invoice_date := invoice_date details in
  let book_title := book_title details in
  let items := items details in
  column ← total_price_column items;
  let total_amount := series_sum column in
  let timestamp := strftime_Ymd now in
  let filename := invoice_filename customer_name invoice_date timestamp in
  let sh : sheet := ∅ in
  let sh :=
    add_header_information env now customer_name customer_address invoice_date sh in
  let sh := write_header 1 itemized_header sh in
  let sh := set_cell 10 2 (VStr book_title) sh in
  '(sh, row_num) ← write_items invoice_date items 11 sh;
  let sh := add_total_amount env total_amount row_num sh in
  widths ← adjust_widths sh (seq 1 (max_column sh)) ∅;
  mret (filename, Workbook sh widths).

(** [main]: the details are collected, then rendered; the message names
    the file. *)
Definition main (env : environ) (now : datetime) : io (string * workbook) :=
  invoice_details ← get_invoice_details;
  '(filename, wb) ← lift (create_invoice env now invoice_details);
  _ ← print ("Invoice created and saved as '" +:+ filename +:+ "'");
  mret (filename, wb).

(** ** The statements of the specification *)

(** The lines typed for a sequence of (answer, hours text) pairs, one
    pair per work type: the hours are asked for, and so typed, only after
    an answer that counts as a yes. *)
Definition lines_of (answers : list (string * string)) : list string :=
  answers ≫= λ '(answer, text), if performed_yes answer then [answer; text] else [answer].

(** The entry for one work type and its pair of inputs, if any. *)
Definition entry_of (accepts : string → option float)
    (rate_of : string * float) (typed : string * string) : list item :=
  let '(work_type, rate) := rate_of in
  let '(answer, text) := typed in
  if performed_yes answer then
    match accepts text with
    | Some hours => [Item work_type hours rate (F64.mul hours rate)]
    | None => []
    end
  else [].

(** The items of the written specification: one entry per work type that
    was affirmed and whose hours text is accepted, in the order of the
    rate table. *)
Definition collected (accepts : string → option float)
    (rates_dict : Dict.t float) (answers : list (string * string))
    : list item :=
  mjoin (zip_with (entry_of accepts) rates_dict answers).

(** The hours text is accepted by [to_float]. *)
Definition accepted_by (to_float : string → result float) (text : string)
    : option float :=
  match to_float text with
  | Ok hours => Some hours
  | Raise _ => None
  end.

(** [float] raises nothing but [ValueError] on a text. *)
Definition raises_only_ValueError (to_float : string → result float) : Prop :=
  ∀ text e, to_float text = Raise e → e = ValueError.

(** The hours text parses as a non-negative decimal: [float] accepts it
    and the value is not below zero. *)
Definition non_negative_decimal (text : string) : option float :=
  match F64.of_str text with
  | Ok hours => if SFleb F64.zero hours then Some hours else None
  | Raise _ => None
  end.

(** The three messages of the collector. *)
Definition question (work_type : string) : string :=
  "Did you perform: " +:+ work_type +:+ "? ".
Definition hours_prompt : string := "Enter hours: ".
Definition warning : string :=
  "Invalid input for hours. Please enter a numeric value.".

(** What the collector writes for one work type and its pair of inputs. *)
Definition said (to_float : string → result float)
    (rate_of : string * float) (typed : string * string) : list string :=
  let '(work_type, _) := rate_of in
  let '(answer, text) := typed in
  question work_type ::
    (if performed_yes answer then
       hours_prompt ::
         match to_float text with Ok _ => [] | Raise _ => [warning] end
     else []).

Definition transcript (to_float : string → result float)
    (rates_dict : Dict.t float) (answers : list (string * string))
    : list string :=
  mjoin (zip_with (said to_float) rates_dict answers).

(** The eight spellings of the affirmative answer. *)
Definition yes_spellings : list string :=
  ["yes"; "yeS"; "yEs"; "yES"; "Yes"; "YeS"; "YEs"; "YES"].

(** [customer_name] with every space replaced by an underscore. *)
Fixpoint spaces_to_underscores (s : string) : string :=
  match s with
  | EmptyString => EmptyString
  | String c s' =>
      String (if Ascii.eqb c " " then "_"%char else c) (spaces_to_underscores s')
  end.

(** The hundredths shown by [format(x, ".2f")], with their sign. *)
Definition shown_cents (x : float) : option Z :=
  match x with
  | S754_zero _ => Some 0%Z
  | S754_finite s m e => Some (cond_Zopp s (F64.cents m e))
  | _ => None
  end.


(** The value of [x] is [a] quarters: [a / 4]. The values are compared
    after scaling by [2 ^ (- k)], for [k] the lesser of the exponent and
    of [-2]. *)
Definition is_quarters (x : float) (a : Z) : Prop :=
  match x with
  | S754_zero _ => a = 0%Z
  | S754_finite s m e =>
      (cond_Zopp s (Zpos m) * 2 ^ (e - Z.min e (-2))
       = a * 2 ^ (-2 - Z.min e (-2)))%Z
  | _ => False
  end.





(** The length of a text: the number of its characters, that is, of the
    bytes of its UTF-8 encoding that are not continuation bytes (128 to
    191); for an ASCII text, the number of its bytes. *)
Fixpoint characters (s : string) : nat :=
  match s with
  | EmptyString => 0
  | String b s' =>
      if ((128 <=? Str.code b) && (Str.code b <=? 191))%N
      then characters s'
      else S (characters s')
  end.

(** [n] is the greatest text length among the cells of [column] that
    hold a value, and [0] if there is none. *)
Definition longest_in_column (sh : sheet) (column n : nat) : Prop :=
  (∀ row s, sh !! (row, column) = Some (VStr s) → characters s ≤ n)
  ∧ (n = 0%nat
     ∨ ∃ row s, sh !! (row, column) = Some (VStr s) ∧ characters s = n).

(** Every cell lies in the five columns of the table, from row 1 on. *)
Definition in_grid (sh : sheet) : Prop :=
  ∀ row column v, sh !! (row, column) = Some v →
    (1 ≤ row ∧ 1 ≤ column ≤ 5)%nat.

(** The sheet as it is when the loop over the items starts. *)
Definition sheet_above_items (env : environ) (now : datetime)
    (details : invoice_details) : sheet :=
  set_cell 10 2 (VStr (book_title details))
    (write_header 1 itemized_header
       (add_header_information env now (customer_name details)
          (customer_address details) (invoice_date details) ∅)).

(** The environment [env'] is [env] with some variables not set. *)
Definition unset_some (env env' : environ) : Prop :=
  (NAME env' = None ∨ NAME env' = NAME env)
  ∧ (ADDRESS env' = None ∨ ADDRESS env' = ADDRESS env)
  ∧ (CITY_STATE_ZIP env' = None ∨ CITY_STATE_ZIP env' = CITY_STATE_ZIP env)
  ∧ (SOCIAL_HANDLE env' = None ∨ SOCIAL_HANDLE env' = SOCIAL_HANDLE env).

(** The float 60, the divisor of the two remainders. *)
Definition sixty : float := S754_finite false 8444249301319680 (-47).

(** A float that is a zero, or positive and at most 60; the values are
    compared after scaling by [2 ^ (- k)]. *)
Definition upto_60 (r : float) : Prop :=
  r = S754_zero false
  ∨ ∃ m e k, r = S754_finite false m e ∧ (k ≤ e)%Z ∧ (k ≤ -1074)%Z
             ∧ (Zpos m * 2 ^ (e - k) ≤ 60 * 2 ^ (- k))%Z.

(** The floor of [x % 60]. *)
Definition floor_rem_60 (x : float) : option Z :=
  match F64.rem x (F64.of_Z 60) with
  | Ok r => F64.floor r
  | Raise _ => None
  end.

(** An item of 1e305 hours, as entered. *)
Definition long_item : item :=
  Item "audiobook editing" (F64.of_decimal false 1 305) (F64.of_Z 50)
    (F64.mul (F64.of_decimal false 1 305) (F64.of_Z 50)).

(** ** Sample data *)

Definition sample_env : environ :=
  Environ (Some "Kyle G") (Some "12 Oak St") (Some "Springfield, OR 97477")
          (Some "@kg").

Definition sample_now : datetime := Datetime 2024 3 5.

(** Jane Doe's invoice: two hours of audiobook editing. *)
Definition sample_details : invoice_details :=
  InvoiceDetails "Jane Doe" "1 Main St" "2024-03-01" "Sample Title"
    [Item "audiobook editing" (F64.of_Z 2) (F64.of_Z 50) (F64.of_Z 100)].

Definition sample_filename : string :=
  "invoice_Jane_Doe_2024-03-01_20240305.xlsx".

Definition sample_workbook : workbook :=
  match create_invoice sample_env sample_now sample_details with
  | Ok (_, wb) => wb
  | Raise _ => Workbook ∅ ∅
  end.



(** ** Further statements *)

(** What a run of the collector that returns has done: the lines read,
    the entries added and the text written. *)
Definition collector_outcome (rates_dict : Dict.t float) (work_types : list string)
    (items : list item) (w : world) (its : list item) (w' : world) : Prop :=
  ∃ consumed new said,
    stdin w = consumed ++ stdin w'
    ∧ (length work_types ≤ length consumed ≤ 2 * length work_types)%nat
    ∧ its = items ++ new
    ∧ (Type_of_Work <$> new) `sublist_of` work_types
    ∧ Forall (λ it, Total_Price it = F64.mul (Hours it) (Hourly_Rate it)
                    ∧ (Type_of_Work it, Hourly_Rate it) ∈ rates_dict) new
    ∧ stdout w' = stdout w ++ said
    ∧ (question <$> work_types) `sublist_of` said.

(** The four prompts of [get_invoice_details]. *)
Definition header_prompts : list string :=
  ["Enter customer name: "; "Enter customer address: ";
   "Enter invoice date (YYYY-MM-DD): "; "Enter the title of the book: "].

(** The line printed by [main] once the file is saved. *)
Definition confirmation (filename : string) : string :=
  "Invoice created and saved as '" +:+ filename +:+ "'".

(** The hours can be rendered as a run time. *)
Definition hours_renderable (hours : float) : bool :=
  F64.is_finite hours
  && F64.is_finite (F64.mul hours (F64.of_Z 60))
  && F64.is_finite (F64.mul hours (F64.of_Z 3600)).

(** The text is made of ASCII characters. *)
Definition ascii_text (s : string) : bool :=
  forallb Str.is_ascii (list_ascii_of_string s).

(** The character at position [i] of [s] follows a letter. *)
Definition follows_letter (i : nat) (s : string) : bool :=
  match i with
  | O => false
  | S j =>
      match String.get j s with
      | Some previous => Str.is_cased previous
      | None => false
      end
  end.

(** [t] is the ASCII text [s] in title case: character by character, a
    letter that follows a letter is in lower case and any other letter
    is in upper case; what is not a letter is kept. *)
Definition title_case_of (s t : string) : Prop :=
  String.length t = String.length s
  ∧ ∀ i c, String.get i s = Some c →
      String.get i t
      = Some (if follows_letter i s then Str.to_lower c else Str.to_upper c).

(** No cell lies below row [n]. *)
Definition rows_upto (n : nat) (sh : sheet) : Prop :=
  ∀ row column v, sh !! (row, column) = Some v → (row ≤ n)%nat.

(** The value of a float that is a whole number: [m * 2 ^ e] with its
    sign, when no binary digit lies after the point. *)
Definition whole_value (x : float) : option Z :=
  match x with
  | S754_zero _ => Some 0%Z
  | S754_finite s m e =>
      match e with
      | Zneg p =>
          if (Zpos m mod Z.pow_pos 2 p =? 0)%Z
          then Some (cond_Zopp s (Zpos m / Z.pow_pos 2 p))
          else None
      | _ => Some (cond_Zopp s (Zpos m * 2 ^ e))
      end
  | _ => None
  end.

(** Whole hours [n], as typed: the value read is [n], and the run time
    and the totals at 50 and at 25 an hour are the expected texts. *)
Definition whole_hours_ok (n : nat) : bool :=
  match F64.of_str (pretty n) with
  | Ok hours =>
      match whole_value hours with
      | Some z => (z =? Z.of_nat n)%Z
      | None => false
      end &&
      match run_time hours with
      | Ok time => String.eqb time (Str.format_02 (Z.of_nat n) +:+ ":00:00")
      | Raise _ => false
      end
      && String.eqb (currency (F64.mul hours (F64.of_Z 50)))
           ("$" +:+ pretty (50 * n)%nat +:+ ".00")
      && String.eqb (currency (F64.mul hours (F64.of_Z 25)))
           ("$" +:+ pretty (25 * n)%nat +:+ ".00")
  | Raise _ => false
  end.

(** The lines typed for Jane Doe's invoice, and the world once they are
    read and the invoice is rendered. *)
Definition sample_input : list string :=
  ["Jane Doe"; "1 Main St"; "2024-03-01"; "Sample Title"; "yes"; "2"; "no"; "no"].

Definition sample_world_collected : world :=
  (get_invoice_details (World sample_input [])).2.

Definition sample_world_end : world :=
  (main sample_env sample_now (World sample_input [])).2.

(** * Properties *)

(** ** The collector *)

Section Collector.

Implicit Types (rates_dict : Dict.t float) (items : list item).
Implicit Types (answer text work_type : string) (more out : list string).
Implicit Types (to_float : string → result float).

Lemma of_str_raises text e : F64.of_str text = Raise e → e = ValueError.
Proof.
  unfold F64.of_str. intros H.
  destruct (F64.drop_underscores _ _) as [s|]; [|congruence].
  destruct (F64.take_sign s) as [sg body].
  destruct (_ || _); [discriminate|].
  destruct (String.eqb _ _); [discriminate|].
  destruct (F64.parse_decimal body) as [[m e']|]; congruence.
Qed.

Lemma getitem_lookup {V} (d : Dict.t V) k v :
  Dict.wf d → (k, v) ∈ d → Dict.getitem d k = Ok v.
Proof.
  unfold Dict.wf, Dict.keys.
  induction d as [|[k' v'] d IH]; simpl; intros Hnd Hin.
  - by apply elem_of_nil in Hin.
  - apply NoDup_cons in Hnd as [Hk' Hnd].
    apply elem_of_cons in Hin as [[= -> ->]|Hin].
    + by rewrite String.eqb_refl.
    + destruct (String.eqb_spec k' k) as [->|_]; [|by apply IH].
      destruct Hk'. apply list_elem_of_fmap. by exists (k, v).
Qed.

(** The three ways through the body of the loop. *)
Lemma step_declined_with to_float rates_dict items work_type answer more out :
  performed_yes answer = false →
  get_items_step_with to_float rates_dict items work_type
    (World (answer :: more) out)
  = (Ok items, World more (out ++ [question work_type])).
Proof.
  intros Hno. unfold get_items_step_with, mbind, io_bind, input. simpl.
  by rewrite Hno.
Qed.

Lemma step_accepted_with to_float rates_dict items work_type answer text hours
    rate more out :
  performed_yes answer = true →
  to_float text = Ok hours →
  Dict.getitem rates_dict work_type = Ok rate →
  get_items_step_with to_float rates_dict items work_type
    (World (answer :: text :: more) out)
  = (Ok (items ++ [Item work_type hours rate (F64.mul hours rate)]),
     World more (out ++ [question work_type; hours_prompt])).
Proof.
  intros Hyes Hf Hr.
  unfold get_items_step_with, mbind, io_bind, input, try_except_ValueError, lift.
  simpl. rewrite Hyes. simpl. rewrite Hf, Hr. simpl.
  by rewrite <-app_assoc.
Qed.

Lemma step_refused_with to_float rates_dict items work_type answer text more out :
  performed_yes answer = true →
  to_float text = Raise ValueError →
  get_items_step_with to_float rates_dict items work_type
    (World (answer :: text :: more) out)
  = (Ok items,
     World more (out ++ [question work_type; hours_prompt; warning])).
Proof.
  intros Hyes Hf.
  unfold get_items_step_with, mbind, io_bind, input, try_except_ValueError,
    lift, print.
  simpl. rewrite Hyes. simpl. rewrite Hf. simpl.
  by rewrite <-!app_assoc.
Qed.

Lemma step_declined rates_dict items work_type answer more out :
  performed_yes answer = false →
  get_items_step rates_dict items work_type (World (answer :: more) out)
  = (Ok items, World more (out ++ [question work_type])).
Proof. apply step_declined_with. Qed.

Lemma step_accepted rates_dict items work_type answer text hours rate more out :
  performed_yes answer = true →
  F64.of_str text = Ok hours →
  Dict.getitem rates_dict work_type = Ok rate →
  get_items_step rates_dict items work_type
    (World (answer :: text :: more) out)
  = (Ok (items ++ [Item work_type hours rate (F64.mul hours rate)]),
     World more (out ++ [question work_type; hours_prompt])).
Proof. apply step_accepted_with. Qed.

Lemma step_refused rates_dict items work_type answer text more out :
  performed_yes answer = true →
  F64.of_str text = Raise ValueError →
  get_items_step rates_dict items work_type
    (World (answer :: text :: more) out)
  = (Ok items,
     World more (out ++ [question work_type; hours_prompt; warning])).
Proof. apply step_refused_with. Qed.

(** The loop, from any point of the table on: it reads exactly the
    lines typed for the work types left and adds their entries. *)
Lemma get_items_loop_collected to_float rates_dict :
  raises_only_ValueError to_float →
  Dict.wf rates_dict →
  ∀ (rest : Dict.t float) (answers : list (string * string)) items more out,
    rest ⊆ rates_dict →
    length answers = length rest →
    get_items_loop_with to_float rates_dict (Dict.keys rest) items
      (World (lines_of answers ++ more) out)
    = (Ok (items ++ collected (accepted_by to_float) rest answers),
       World more (out ++ transcript to_float rest answers)).
Proof.
  intros Hfloat Hwf rest.
  induction rest as [|[work_type rate] rest IH];
    intros [|[answer text] answers] items more out Hsub Hlen;
    simplify_eq/=.
  { unfold collected, transcript. simpl. by rewrite !app_nil_r. }
  assert (Hget : Dict.getitem rates_dict work_type = Ok rate).
  { apply getitem_lookup; [done|]. apply Hsub. set_solver. }
  assert (Hrest : rest ⊆ rates_dict) by set_solver.
  unfold mbind at 1, io_bind at 1.
  unfold lines_of in *. simpl.
  unfold collected, transcript in *. simpl.
  unfold accepted_by at 1.
  destruct (performed_yes answer) eqn:Hyes; simpl.
  - destruct (to_float text) as [hours|e] eqn:Hf.
    + rewrite (step_accepted_with _ _ _ _ _ _ hours rate) by done.
      rewrite IH by done. simpl.
      by rewrite <-!app_assoc.
    + apply Hfloat in Hf as Hv. subst e.
      rewrite step_refused_with by done.
      rewrite IH by done. simpl.
      by rewrite <-!app_assoc.
  - rewrite step_declined_with by done.
    rewrite IH by done. simpl.
    by rewrite <-!app_assoc.
Qed.

End Collector.

(** The entries are taken from the rate table, in its order, and each
    total is the product of the hours and the rate. *)
Lemma collected_shape accepts (rates_dict : Dict.t float) answers :
  (Type_of_Work <$> collected accepts rates_dict answers)
    `sublist_of` Dict.keys rates_dict
  ∧ Forall (λ it, Total_Price it = F64.mul (Hours it) (Hourly_Rate it)
                  ∧ (Type_of_Work it, Hourly_Rate it) ∈ rates_dict)
      (collected accepts rates_dict answers).
Proof.
  unfold collected, Dict.keys.
  revert answers.
  induction rates_dict as [|[work_type rate] rates IH].
  { intros answers. simpl. split; [apply sublist_nil_l|constructor]. }
  intros [|[answer text] answers]; simpl.
  { split; [apply sublist_nil_l|constructor]. }
  destruct (IH answers) as [Hsub Hall].
  assert (Hall' : Forall (λ it, Total_Price it = F64.mul (Hours it) (Hourly_Rate it)
                  ∧ (Type_of_Work it, Hourly_Rate it) ∈ (work_type, rate) :: rates)
      (mjoin (zip_with (entry_of accepts) rates answers))).
  { eapply Forall_impl; [exact Hall|]. intros it [? ?]. split; [done|].
    by apply elem_of_cons; right. }
  destruct (performed_yes answer); simpl.
  - destruct (accepts text) as [hours|]; simpl.
    + split; [by apply sublist_skip|].
      constructor; [|done]. simpl. split; [done|]. by apply elem_of_cons; left.
    + split; [by apply sublist_cons|done].
  - split; [by apply sublist_cons|done].
Qed.

Lemma get_items_run (to_float : string → result float)
    (rates_dict : Dict.t float)
    (answers : list (string * string)) (more out : list string) :
  raises_only_ValueError to_float →
  Dict.wf rates_dict →
  length answers = length rates_dict →
  get_items_with to_float rates_dict (World (lines_of answers ++ more) out)
  = (Ok (collected (accepted_by to_float) rates_dict answers),
     World more (out ++ transcript to_float rates_dict answers)).
Proof.
  intros Hfloat Hwf Hlen. unfold get_items_with.
  by rewrite (get_items_loop_collected to_float rates_dict Hfloat Hwf
                rates_dict answers []).
Qed.

(** C1 (amended). Whatever texts the builtin [float] accepts, as long as
    it raises nothing but [ValueError]: for every rate table and every
    sequence of (answer, hours text) inputs, one pair per work type,
    [get_items] returns exactly one entry per work type that was affirmed
    and whose hours text is accepted by [float] (whatever the sign of the
    value, and also for [inf] and [nan]), in the order of the rate table,
    each with its total equal to the floating-point product of the hours
    and the rate. *)
Theorem get_items_collects (to_float : string → result float)
    (rates_dict : Dict.t float)
    (answers : list (string * string)) (more out : list string) :
  raises_only_ValueError to_float →
  Dict.wf rates_dict →
  length answers = length rates_dict →
  get_items_with to_float rates_dict (World (lines_of answers ++ more) out)
  = (Ok (collected (accepted_by to_float) rates_dict answers),
     World more (out ++ transcript to_float rates_dict answers))
  ∧ (Type_of_Work <$> collected (accepted_by to_float) rates_dict answers)
      `sublist_of` Dict.keys rates_dict
  ∧ Forall (λ it, Total_Price it = F64.mul (Hours it) (Hourly_Rate it)
                  ∧ (Type_of_Work it, Hourly_Rate it) ∈ rates_dict)
      (collected (accepted_by to_float) rates_dict answers).
Proof.
  intros Hfloat Hwf Hlen. split; [by apply get_items_run|apply collected_shape].
Qed.

Lemma DEFAULT_RATES_wf : Dict.wf DEFAULT_RATES.
Proof. unfold Dict.wf. apply (bool_decide_unpack _). vm_compute. exact I. Defined.

Lemma get_items_collects_witness :
  get_items DEFAULT_RATES
    (World (lines_of [("YES", "1.5"); ("no", ""); ("Yes", "abc")] ++ []) [])
  = (Ok [Item "audiobook editing" (F64.of_decimal false 15 (-1)) (F64.of_Z 50)
           (F64.of_Z 75)],
     World [] ["Did you perform: audiobook editing? "; "Enter hours: ";
               "Did you perform: audiobook proofing? ";
               "Did you perform: extra editing? "; "Enter hours: ";
               "Invalid input for hours. Please enter a numeric value."]).
Proof.
  apply (get_items_collects F64.of_str DEFAULT_RATES
           [("YES", "1.5"); ("no", ""); ("Yes", "abc")] [] []).
  - exact of_str_raises.
  - exact DEFAULT_RATES_wf.
  - reflexivity.
Defined.

(** C1 (as stated) fails: the hours text ["-2"] does not parse as a
    non-negative decimal, yet the affirmed work type gets an entry, with
    hours [-2] and total [-100]. *)
Lemma get_items_keeps_negative_hours :
  (get_items DEFAULT_RATES
     (World (lines_of [("yes", "-2"); ("no", ""); ("no", "")]) [])).1
  = Ok [Item "audiobook editing" (F64.of_Z (-2)) (F64.of_Z 50) (F64.of_Z (-100))]
  ∧ collected non_negative_decimal DEFAULT_RATES
      [("yes", "-2"); ("no", ""); ("no", "")] = []
  ∧ (get_items DEFAULT_RATES
       (World (lines_of [("yes", "-2"); ("no", ""); ("no", "")]) [])).1
    ≠ Ok (collected non_negative_decimal DEFAULT_RATES
            [("yes", "-2"); ("no", ""); ("no", "")]).
Proof.
  split; [vm_compute; reflexivity|].
  split; [vm_compute; reflexivity|].
  vm_compute. discriminate.
Qed.

(** C4. Whatever texts the builtin [float] accepts, as long as it raises
    nothing but [ValueError]: when the hours text of an affirmed work type
    is refused by [float], the collector writes the warning right after
    the one hours prompt, reads nothing more for that work type, does not
    raise, and returns the very items it returns when that work type is
    left out of the table and its two lines out of the input. *)
Theorem refused_hours_drop_one_item (to_float : string → result float)
    (rates1 rates2 : Dict.t float) (work_type : string) (rate : float)
    (answers1 answers2 : list (string * string)) (answer text : string)
    (more out : list string) :
  raises_only_ValueError to_float →
  Dict.wf (rates1 ++ (work_type, rate) :: rates2) →
  length answers1 = length rates1 →
  length answers2 = length rates2 →
  performed_yes answer = true →
  to_float text = Raise ValueError →
  let kept :=
    collected (accepted_by to_float) (rates1 ++ rates2) (answers1 ++ answers2) in
  get_items_with to_float (rates1 ++ (work_type, rate) :: rates2)
    (World (lines_of (answers1 ++ (answer, text) :: answers2) ++ more) out)
  = (Ok kept,
     World more (out ++ transcript to_float rates1 answers1
                     ++ [question work_type; hours_prompt; warning]
                     ++ transcript to_float rates2 answers2))
  ∧ get_items_with to_float (rates1 ++ rates2)
      (World (lines_of (answers1 ++ answers2) ++ more) out)
    = (Ok kept,
       World more (out ++ transcript to_float rates1 answers1
                       ++ transcript to_float rates2 answers2)).
Proof.
  intros Hfloat Hwf Hlen1 Hlen2 Hyes Hf kept.
  assert (Hwf' : Dict.wf (rates1 ++ rates2)).
  { unfold Dict.wf, Dict.keys in *. rewrite fmap_app in *. simpl in Hwf.
    apply NoDup_app in Hwf as (H1 & H2 & H3).
    apply NoDup_cons in H3 as [_ H3].
    apply NoDup_app. split_and!; [done| |done].
    intros k Hk1 Hk2. apply (H2 k Hk1). by right. }
  assert (Hl : length (answers1 ++ (answer, text) :: answers2)
               = length (rates1 ++ (work_type, rate) :: rates2)).
  { rewrite !length_app. simpl. lia. }
  assert (Hl' : length (answers1 ++ answers2) = length (rates1 ++ rates2)).
  { rewrite !length_app. lia. }
  rewrite (get_items_run _ _ _ more out Hfloat Hwf Hl).
  rewrite (get_items_run _ _ _ more out Hfloat Hwf' Hl').
  subst kept. unfold collected, transcript.
  rewrite !zip_with_app by done. simpl.
  rewrite !join_app. simpl.
  rewrite Hyes, Hf. unfold accepted_by at 2. rewrite Hf. simpl.
  done.
Qed.

Lemma refused_hours_drop_one_item_witness :
  get_items ([("audiobook editing", F64.of_Z 50)]
               ++ ("audiobook proofing", F64.of_Z 25) :: [("extra editing", F64.of_Z 50)])
    (World (lines_of ([("no", "")] ++ ("yes", "abc") :: [("yes", "2")]) ++ []) [])
  = (Ok [Item "extra editing" (F64.of_Z 2) (F64.of_Z 50) (F64.of_Z 100)],
     World [] ["Did you perform: audiobook editing? ";
               "Did you perform: audiobook proofing? "; "Enter hours: ";
               "Invalid input for hours. Please enter a numeric value.";
               "Did you perform: extra editing? "; "Enter hours: "]).
Proof.
  refine (proj1 (refused_hours_drop_one_item F64.of_str
           [("audiobook editing", F64.of_Z 50)] [("extra editing", F64.of_Z 50)]
           "audiobook proofing" (F64.of_Z 25)
           [("no", "")] [("yes", "2")] "yes" "abc" [] [] _ _ _ _ _ _)).
  - exact of_str_raises.
  - exact DEFAULT_RATES_wf.
  - reflexivity.
  - reflexivity.
  - reflexivity.
  - vm_compute. reflexivity.
Defined.

(** ** The affirmative answer *)

Lemma to_lower_y c : Str.to_lower c = "y"%char → c = "y"%char ∨ c = "Y"%char.
Proof. destruct c as [[] [] [] [] [] [] [] []]; vm_compute; intros; (discriminate || auto). Qed.

Lemma to_lower_e c : Str.to_lower c = "e"%char → c = "e"%char ∨ c = "E"%char.
Proof. destruct c as [[] [] [] [] [] [] [] []]; vm_compute; intros; (discriminate || auto). Qed.

Lemma to_lower_s c : Str.to_lower c = "s"%char → c = "s"%char ∨ c = "S"%char.
Proof. destruct c as [[] [] [] [] [] [] [] []]; vm_compute; intros; (discriminate || auto). Qed.

Lemma performed_yes_lower answer :
  performed_yes answer = true ↔ Str.lower answer = "yes".
Proof. unfold performed_yes. apply String.eqb_eq. Qed.

(** C5. An answer counts as affirmed exactly when its lower-cased form is
    the literal ["yes"], that is, when it is one of the eight spellings of
    "yes" in upper and lower case; ["yes"], ["YES"] and ["Yes"] affirm, and
    ["y"], ["no"], [""] and ["true"] decline. *)
Theorem affirmed_iff_yes :
  (∀ answer, performed_yes answer = true ↔ Str.lower answer = "yes")
  ∧ (∀ answer, performed_yes answer = true ↔ answer ∈ yes_spellings)
  ∧ performed_yes "yes" = true
  ∧ performed_yes "YES" = true
  ∧ performed_yes "Yes" = true
  ∧ performed_yes "y" = false
  ∧ performed_yes "no" = false
  ∧ performed_yes "" = false
  ∧ performed_yes "true" = false.
Proof.
  split; [exact performed_yes_lower|].
  split; [|by vm_compute].
  intros answer. split.
  - rewrite performed_yes_lower.
    destruct answer as [|c1 [|c2 [|c3 [|c4 rest]]]]; simpl; try discriminate.
    intros [= H1 H2 H3].
    apply to_lower_y in H1 as [-> | ->]; apply to_lower_e in H2 as [-> | ->];
      apply to_lower_s in H3 as [-> | ->]; unfold yes_spellings;
      repeat (apply elem_of_cons; (by left) || right).
  - unfold yes_spellings. rewrite !elem_of_cons, elem_of_nil.
    intros [->|[->|[->|[->|[->|[->|[->|[->|[]]]]]]]]]; reflexivity.
Qed.

(** ** Texts that [float] accepts *)

(** C9. The hours are parsed by [float] alone: an affirmed work type
    whose hours text is ["nan"], ["inf"], ["-2"] or [" 2 "] still gets a
    line item, with the total [nan], [inf], [-100] and [100]. *)
Theorem float_accepts_more_than_decimals :
  (get_items DEFAULT_RATES (World ["yes"; "nan"; "no"; "no"] [])).1
  = Ok [Item "audiobook editing" F64.nan (F64.of_Z 50) F64.nan]
  ∧ (get_items DEFAULT_RATES (World ["yes"; "inf"; "no"; "no"] [])).1
    = Ok [Item "audiobook editing" F64.inf (F64.of_Z 50) F64.inf]
  ∧ (get_items DEFAULT_RATES (World ["yes"; "-2"; "no"; "no"] [])).1
    = Ok [Item "audiobook editing" (F64.of_Z (-2)) (F64.of_Z 50) (F64.of_Z (-100))]
  ∧ (get_items DEFAULT_RATES (World ["yes"; " 2 "; "no"; "no"] [])).1
    = Ok [Item "audiobook editing" (F64.of_Z 2) (F64.of_Z 50) (F64.of_Z 100)]
  ∧ F64.is_finite F64.nan = false
  ∧ F64.is_finite F64.inf = false
  ∧ SFltb (F64.of_Z (-100)) F64.zero = true
  ∧ ∀ rates_dict items work_type answer text hours rate more out,
      performed_yes answer = true →
      F64.of_str text = Ok hours →
      Dict.getitem rates_dict work_type = Ok rate →
      get_items_step rates_dict items work_type
        (World (answer :: text :: more) out)
      = (Ok (items ++ [Item work_type hours rate (F64.mul hours rate)]),
         World more (out ++ [question work_type; hours_prompt])).
Proof.
  repeat (split; [vm_compute; reflexivity|]).
  intros. by apply step_accepted.
Qed.

(** ** The renderer: the cells *)

Section Cells.

Implicit Types (sh : sheet) (v : value) (row column : nat).

Lemma set_cell_eq row column v sh :
  set_cell row column v sh !! (row, column) = Some v.
Proof. apply lookup_insert_eq. Qed.

Lemma set_cell_ne row column v sh row' column' :
  (row, column) ≠ (row', column') →
  set_cell row column v sh !! (row', column') = sh !! (row', column').
Proof. intros. by apply lookup_insert_ne. Qed.

Lemma set_cell_in_grid row column v sh :
  1 ≤ row → 1 ≤ column ≤ 5 → in_grid sh → in_grid (set_cell row column v sh).
Proof.
  intros Hr Hc Hsh row' column' v'. unfold set_cell.
  destruct (decide ((row, column) = (row', column'))) as [[= <- <-]|Hne].
  - done.
  - rewrite lookup_insert_ne by done. apply Hsh.
Qed.

Lemma empty_in_grid : in_grid ∅.
Proof. intros row column v. by rewrite lookup_empty. Qed.

(** The item rows. *)
Lemma write_items_inv invoice_date items :
  ∀ row_num sh sh' row_num',
    write_items invoice_date items row_num sh = Ok (sh', row_num') →
    row_num' = row_num + length items
    ∧ Forall (λ it, is_ok (run_time (Hours it)) = true) items
    ∧ (∀ row column, row < row_num ∨ row_num' ≤ row →
         sh' !! (row, column) = sh !! (row, column))
    ∧ (∀ row column v, sh' !! (row, column) = Some v →
         sh !! (row, column) = Some v
         ∨ (row_num ≤ row < row_num' ∧ 1 ≤ column ≤ 5))
    ∧ (∀ i it, items !! i = Some it →
         sh' !! (row_num + i, 1) = Some (VStr invoice_date)
         ∧ sh' !! (row_num + i, 2) = Some (VStr (Str.title (Type_of_Work it)))
         ∧ (∃ time, run_time (Hours it) = Ok time
                    ∧ sh' !! (row_num + i, 3) = Some (VStr time))
         ∧ sh' !! (row_num + i, 4) = Some (VStr (currency (Hourly_Rate it)))
         ∧ sh' !! (row_num + i, 5) = Some (VStr (currency (Total_Price it)))).
Proof.
  induction items as [|it items IH]; intros row_num sh sh' row_num' Hw.
  - simpl in Hw. injection Hw as <- <-.
    split_and!; [simpl; lia|constructor|done|auto|].
    intros i it Hi. by rewrite lookup_nil in Hi.
  - simpl in Hw. unfold mbind, result_bind in Hw.
    destruct (run_time (Hours it)) as [time|e] eqn:Htime; [|done].
    apply IH in Hw as (-> & Hall & Hout & Hin & Hrows).
    split_and!.
    + simpl. lia.
    + constructor; [by rewrite Htime|done].
    + intros row column Hrow. rewrite Hout by lia.
      rewrite !set_cell_ne; [done|intros [= ]; lia..].
    + intros row column v Hv. apply Hin in Hv as [Hv|Hv]; [|simpl; lia].
      destruct (decide (row = row_num)) as [->|Hne].
      * destruct (decide (1 ≤ column ≤ 5)); [right; simpl; lia|].
        left. rewrite !set_cell_ne in Hv; [done|intros [= ]; lia..].
      * left. rewrite !set_cell_ne in Hv; [done|intros [= ]; lia..].
    + intros [|i] it' Hi; simpl in Hi.
      * injection Hi as <-. rewrite Nat.add_0_r.
        rewrite !Hout by lia.
        split_and!.
        -- rewrite !set_cell_ne by (intros [= ]; lia). apply set_cell_eq.
        -- rewrite !set_cell_ne by (intros [= ]; lia). apply set_cell_eq.
        -- exists time. split; [done|].
           rewrite !set_cell_ne by (intros [= ]; lia). apply set_cell_eq.
        -- rewrite !set_cell_ne by (intros [= ]; lia). apply set_cell_eq.
        -- apply set_cell_eq.
      * replace (row_num + S i) with (S row_num + i) by lia.
        by apply Hrows.
Qed.

(** The item rows are written whenever every run time can be formatted,
    whatever the sheet holds. *)
Lemma write_items_ok invoice_date items :
  Forall (λ it, is_ok (run_time (Hours it)) = true) items →
  ∀ row_num sh, ∃ sh',
    write_items invoice_date items row_num sh
    = Ok (sh', row_num + length items).
Proof.
  induction 1 as [|it items Hit _ IH]; intros row_num sh.
  - exists sh. simpl. by rewrite Nat.add_0_r.
  - simpl. unfold mbind, result_bind.
    destruct (run_time (Hours it)) as [time|e]; [|done].
    edestruct IH as [sh' ->]. exists sh'. do 2 f_equal. lia.
Qed.

Lemma write_header_in_grid sh :
  in_grid sh → in_grid (write_header 1 itemized_header sh).
Proof.
  intros H. simpl. by repeat (apply set_cell_in_grid; [lia|lia|]).
Qed.

Lemma add_header_information_in_grid env now name address date sh :
  in_grid sh → in_grid (add_header_information env now name address date sh).
Proof.
  intros H. unfold add_header_information, set_ref.
  by repeat (apply set_cell_in_grid; [vm_compute; lia|vm_compute; lia|]).
Qed.

Lemma add_total_amount_in_grid env total row_num sh :
  1 ≤ row_num → in_grid sh → in_grid (add_total_amount env total row_num sh).
Proof.
  intros Hr H. unfold add_total_amount.
  by repeat (apply set_cell_in_grid; [lia|lia|]).
Qed.

Lemma write_items_in_grid invoice_date items row_num sh sh' row_num' :
  1 ≤ row_num → in_grid sh →
  write_items invoice_date items row_num sh = Ok (sh', row_num') →
  in_grid sh'.
Proof.
  intros Hr H Hw row column v Hv.
  apply write_items_inv in Hw as (_ & _ & _ & Hin & _).
  apply Hin in Hv as [Hv|Hv]; [by eapply H|lia].
Qed.

End Cells.

(** ** The renderer: the whole sheet *)

Section Rendering.

Implicit Types (env : environ) (now : datetime) (details : invoice_details).
Implicit Types (wb : workbook) (filename : string).

Lemma sheet_above_items_in_grid env now details :
  in_grid (sheet_above_items env now details).
Proof.
  unfold sheet_above_items.
  apply set_cell_in_grid; [lia|lia|].
  apply write_header_in_grid, add_header_information_in_grid, empty_in_grid.
Qed.

(** What a completed rendering went through. *)
Lemma create_invoice_inv env now details filename wb :
  create_invoice env now details = Ok (filename, wb) →
  items details ≠ []
  ∧ filename = invoice_filename (customer_name details) (invoice_date details)
                 (strftime_Ymd now)
  ∧ ∃ sh,
      write_items (invoice_date details) (items details) 11
        (sheet_above_items env now details)
      = Ok (sh, 11 + length (items details))
      ∧ cells wb = add_total_amount env
                     (series_sum (Total_Price <$> items details))
                     (11 + length (items details)) sh
      ∧ adjust_widths (cells wb) (seq 1 (max_column (cells wb))) ∅
        = Ok (column_widths wb).
Proof.
  unfold create_invoice. intros H.
  assert (Hne : items details ≠ []).
  { intros Hnil. by rewrite Hnil in H. }
  split; [done|].
  assert (Hcol : total_price_column (items details)
                 = Ok (Total_Price <$> items details)).
  { by destruct (items details). }
  rewrite Hcol in H. cbn [mbind result_bind] in H.
  fold (sheet_above_items env now details) in H.
  destruct (write_items _ _ _ _) as [[sh row_num]|e] eqn:Hw; [|done].
  cbn [mbind result_bind] in H.
  destruct (adjust_widths _ _ _) as [widths|e] eqn:Hwidths; [|done].
  injection H as <- <-. split; [done|].
  apply write_items_inv in Hw as Hinv. destruct Hinv as (-> & _).
  exists sh. by split_and!.
Qed.

End Rendering.

(** ** The renderer: the column widths *)

Section Widths.

Implicit Types (sh : sheet) (v : value) (row column : nat).

Lemma max_list_le (ns : list nat) n : Forall (λ k, k ≤ n) ns → max_list ns ≤ n.
Proof. induction 1 as [|k ns Hk _ IH]; simpl; [lia|]. apply Nat.max_lub; done. Qed.

Lemma max_row_ge sh row column v :
  sh !! (row, column) = Some v → row ≤ max_row sh.
Proof.
  intros H. apply max_list_elem_of_le.
  apply list_elem_of_fmap. exists (row, column). split; [done|].
  apply list_elem_of_fmap. exists (row, column, v). split; [done|].
  by apply elem_of_map_to_list.
Qed.

Lemma max_column_ge sh row column v :
  sh !! (row, column) = Some v → column ≤ max_column sh.
Proof.
  intros H. apply max_list_elem_of_le.
  apply list_elem_of_fmap. exists (row, column). split; [done|].
  apply list_elem_of_fmap. exists (row, column, v). split; [done|].
  by apply elem_of_map_to_list.
Qed.

Lemma max_column_le sh n :
  (∀ row column v, sh !! (row, column) = Some v → column ≤ n) →
  max_column sh ≤ n.
Proof.
  intros H. apply max_list_le, Forall_forall. intros c Hc.
  apply list_elem_of_fmap in Hc as ([row column] & -> & Hc).
  apply list_elem_of_fmap in Hc as ([[row' column'] v] & [= <- <-] & Hc).
  apply elem_of_map_to_list in Hc. by eapply H.
Qed.

(** The inner loop computes a maximum. *)
Lemma max_length_fold (col : list value) :
  ∀ acc,
    let r := fold_left
               (λ max_length cell,
                  if truthy cell then max_length `max` Str.len (str cell)
                  else max_length) col acc in
    acc ≤ r
    ∧ (∀ v, v ∈ col → truthy v = true → Str.len (str v) ≤ r)
    ∧ (r = acc ∨ ∃ v, v ∈ col ∧ truthy v = true ∧ Str.len (str v) = r).
Proof.
  induction col as [|cell col IH]; intros acc; simpl.
  - split_and!; [lia| |by left]. intros v Hv. by apply elem_of_nil in Hv.
  - destruct (IH (if truthy cell then acc `max` Str.len (str cell) else acc))
      as (Hle & Hall & Hex).
    split_and!.
    + destruct (truthy cell); lia.
    + intros v Hv Ht. apply elem_of_cons in Hv as [->|Hv]; [|by apply Hall].
      rewrite Ht in Hle |- *. lia.
    + destruct Hex as [Heq|(v & Hv & Ht & Hlen)].
      * destruct (truthy cell) eqn:Ht; [|by left].
        destruct (Nat.max_spec acc (Str.len (str cell))) as [[_ Hm]|[_ Hm]].
        -- right. exists cell. split_and!; [by left|done|]. lia.
        -- left. lia.
      * right. exists v. split_and!; [by right|done|done].
Qed.

Lemma column_cells_elem sh column v :
  v ∈ column_cells sh column ↔
  ∃ row, 1 ≤ row ≤ max_row sh ∧ v = default VNone (sh !! (row, column)).
Proof.
  unfold column_cells. rewrite list_elem_of_fmap.
  split.
  - intros (row & -> & Hrow). apply elem_of_seq in Hrow.
    exists row. split; [lia|done].
  - intros (row & Hrow & ->). exists row. split; [done|].
    apply elem_of_seq. lia.
Qed.

(** [len] counts the bytes that start a character. *)
Lemma code_points_go_length pending s :
  length (Str.code_points_go pending s)
  = length (option_list pending) + characters s.
Proof.
  revert pending. induction s as [|b s IH]; intros pending.
  - simpl. lia.
  - cbn [Str.code_points_go characters].
    destruct (Str.code b <? 128)%N eqn:H1.
    { apply N.ltb_lt in H1.
      replace (128 <=? Str.code b)%N with false by (symmetry; apply N.leb_gt; lia).
      rewrite length_app. cbn [length andb]. rewrite IH. simpl. lia. }
    apply N.ltb_ge in H1.
    replace (128 <=? Str.code b)%N with true by (symmetry; apply N.leb_le; lia).
    destruct (Str.code b <? 192)%N eqn:H2.
    { apply N.ltb_lt in H2.
      replace (Str.code b <=? 191)%N with true by (symmetry; apply N.leb_le; lia).
      cbn [andb]. destruct pending; rewrite IH; reflexivity. }
    apply N.ltb_ge in H2.
    replace (Str.code b <=? 191)%N with false by (symmetry; apply N.leb_gt; lia).
    cbn [andb]. rewrite length_app, IH. simpl. lia.
Qed.

Lemma len_characters s : Str.len s = characters s.
Proof. unfold Str.len, Str.code_points. by rewrite code_points_go_length. Qed.

(** The length kept for a column is that of its longest text. *)
Lemma max_length_of_longest sh column :
  (∀ row c v, sh !! (row, c) = Some v → 1 ≤ row) →
  longest_in_column sh column (max_length_of (column_cells sh column)).
Proof.
  intros Hrows. unfold longest_in_column, max_length_of.
  destruct (max_length_fold (column_cells sh column) 0) as (_ & Hall & Hex).
  split.
  - intros row s Hs. destruct s as [|c s]; [simpl; lia|].
    rewrite <-len_characters.
    apply (Hall (VStr (String c s))); [|done].
    apply column_cells_elem. exists row. rewrite Hs. split; [|done].
    split; [by eapply Hrows|by eapply max_row_ge].
  - destruct Hex as [->|(v & Hv & Ht & Hlen)]; [by left|right].
    apply column_cells_elem in Hv as (row & _ & ->).
    destruct (sh !! (row, column)) as [[|s]|] eqn:Hs; try done.
    exists row, s. by rewrite <-len_characters.
Qed.

End Widths.

Section RenderedSheet.

Implicit Types (env : environ) (now : datetime) (details : invoice_details).
Implicit Types (wb : workbook) (filename : string).

(** The cells of a rendered sheet, block by block. *)
Lemma rendered_in_grid env now details filename wb :
  create_invoice env now details = Ok (filename, wb) → in_grid (cells wb).
Proof.
  intros H. apply create_invoice_inv in H as (_ & _ & sh & Hw & -> & _).
  apply add_total_amount_in_grid; [lia|].
  eapply write_items_in_grid; [|apply sheet_above_items_in_grid|exact Hw]. lia.
Qed.

Lemma add_total_amount_above env total row_num sh row column :
  row ≤ row_num →
  add_total_amount env total row_num sh !! (row, column) = sh !! (row, column).
Proof.
  intros Hrow. unfold add_total_amount.
  rewrite !set_cell_ne; [done|intros [= ]; lia..].
Qed.

Lemma rendered_above_items env now details filename wb row column :
  create_invoice env now details = Ok (filename, wb) →
  row < 11 →
  cells wb !! (row, column) = sheet_above_items env now details !! (row, column).
Proof.
  intros H Hrow. apply create_invoice_inv in H as (_ & _ & sh & Hw & -> & _).
  rewrite add_total_amount_above by lia.
  apply write_items_inv in Hw as (_ & _ & Hout & _).
  apply Hout. lia.
Qed.

Lemma rendered_item_row env now details filename wb i it :
  create_invoice env now details = Ok (filename, wb) →
  items details !! i = Some it →
  cells wb !! (11 + i, 1) = Some (VStr (invoice_date details))
  ∧ cells wb !! (11 + i, 2) = Some (VStr (Str.title (Type_of_Work it)))
  ∧ (∃ time, run_time (Hours it) = Ok time
             ∧ cells wb !! (11 + i, 3) = Some (VStr time))
  ∧ cells wb !! (11 + i, 4) = Some (VStr (currency (Hourly_Rate it)))
  ∧ cells wb !! (11 + i, 5) = Some (VStr (currency (Total_Price it))).
Proof.
  intros H Hi. apply create_invoice_inv in H as (_ & _ & sh & Hw & -> & _).
  apply lookup_lt_Some in Hi as Hlt.
  rewrite !add_total_amount_above by lia.
  apply write_items_inv in Hw as (_ & _ & _ & _ & Hrows).
  by apply Hrows.
Qed.

Lemma rendered_total_row env now details filename wb :
  create_invoice env now details = Ok (filename, wb) →
  let row_num := 11 + length (items details) in
  cells wb !! (row_num + 1, 4) = Some (VStr "TOTAL")
  ∧ cells wb !! (row_num + 1, 5)
    = Some (VStr (currency (series_sum (Total_Price <$> items details))))
  ∧ cells wb !! (row_num + 2, 5) = Some (VStr "Please Pay")
  ∧ cells wb !! (row_num + 4, 2) = Some (VStr "Make All Checks Payable To:")
  ∧ cells wb !! (row_num + 5, 2) = Some (of_env (NAME env))
  ∧ cells wb !! (row_num + 6, 2) = Some (of_env (ADDRESS env))
  ∧ cells wb !! (row_num + 7, 2) = Some (of_env (CITY_STATE_ZIP env)).
Proof.
  intros H row_num. apply create_invoice_inv in H as (_ & _ & sh & Hw & -> & _).
  fold row_num. unfold add_total_amount.
  split_and!;
    (rewrite !set_cell_ne by (intros [= ]; lia); apply set_cell_eq)
    || apply set_cell_eq.
Qed.

Lemma adjust_widths_five sh :
  let w column := max_length_of (column_cells sh column) + 2 in
  adjust_widths sh [1; 2; 3; 4; 5] ∅
  = Ok (<["E" := w 5]> (<["D" := w 4]> (<["C" := w 3]>
          (<["B" := w 2]> (<["A" := w 1]> ∅))))).
Proof. reflexivity. Qed.

Lemma below_items_max_column env now details total sh :
  write_items (invoice_date details) (items details) 11
    (sheet_above_items env now details)
  = Ok (sh, 11 + length (items details)) →
  max_column (add_total_amount env total (11 + length (items details)) sh) = 5.
Proof.
  intros Hw. apply Nat.le_antisymm.
  - apply max_column_le. intros row column v Hv.
    apply add_total_amount_in_grid in Hv; [lia|lia|].
    eapply write_items_in_grid; [|apply sheet_above_items_in_grid|exact Hw].
    lia.
  - apply (max_column_ge _ 9 5 (VStr "Total")).
    rewrite add_total_amount_above by lia.
    apply write_items_inv in Hw as (_ & _ & Hout & _).
    rewrite Hout by lia. reflexivity.
Qed.

Lemma rendered_max_column env now details filename wb :
  create_invoice env now details = Ok (filename, wb) →
  max_column (cells wb) = 5.
Proof.
  intros H. apply create_invoice_inv in H as (_ & _ & sh & Hw & -> & _).
  by eapply below_items_max_column.
Qed.

(** Rendering completes exactly when there is an item and the run time
    of every item can be formatted; the environment plays no part. *)
Lemma create_invoice_ok env now details :
  items details ≠ [] →
  Forall (λ it, is_ok (run_time (Hours it)) = true) (items details) →
  ∃ wb, create_invoice env now details
        = Ok (invoice_filename (customer_name details) (invoice_date details)
                (strftime_Ymd now), wb).
Proof.
  intros Hne Hall. unfold create_invoice.
  assert (Hcol : total_price_column (items details)
                 = Ok (Total_Price <$> items details)).
  { by destruct (items details). }
  rewrite Hcol. cbn [mbind result_bind].
  fold (sheet_above_items env now details).
  destruct (write_items_ok (invoice_date details) _ Hall 11
              (sheet_above_items env now details)) as [sh Hw].
  rewrite Hw. cbn [mbind result_bind].
  rewrite (below_items_max_column _ _ _ _ _ Hw).
  change (seq 1 5) with [1; 2; 3; 4; 5]. rewrite adjust_widths_five.
  cbn [mbind result_bind]. eauto.
Qed.

Lemma create_invoice_completes env now details filename wb :
  create_invoice env now details = Ok (filename, wb) →
  items details ≠ []
  ∧ Forall (λ it, is_ok (run_time (Hours it)) = true) (items details).
Proof.
  intros H. apply create_invoice_inv in H as (Hne & _ & sh & Hw & _).
  split; [done|]. by apply write_items_inv in Hw as (_ & Hall & _).
Qed.

End RenderedSheet.

(** C7. In a rendered sheet the columns are [A] to [E], and the width
    given to each is exactly the greatest text length, counted in
    characters, among the cells of that column that hold a value, plus 2;
    cells without a value play no part, and no other column is given a
    width.  So column [B] is at least as wide as the customer name plus
    2, and column [C] at least 16, for its header of 14 characters. *)
Theorem column_widths_fit (env : environ) (now : datetime)
    (details : invoice_details) (filename : string) (wb : workbook) :
  create_invoice env now details = Ok (filename, wb) →
  max_column (cells wb) = 5
  ∧ (∀ column, 1 ≤ column ≤ 5 →
       ∃ letter n,
         get_column_letter column = Ok letter
         ∧ column_widths wb !! letter = Some (n + 2)
         ∧ longest_in_column (cells wb) column n)
  ∧ (∀ letter, is_Some (column_widths wb !! letter) →
       letter ∈ ["A"; "B"; "C"; "D"; "E"])
  ∧ (∃ b c, column_widths wb !! "B" = Some (b + 2)
            ∧ column_widths wb !! "C" = Some (c + 2)
            ∧ characters (customer_name details) ≤ b
            ∧ 14 ≤ c).
Proof.
  intros H.
  pose proof (rendered_max_column _ _ _ _ _ H) as Hmax.
  pose proof (rendered_in_grid _ _ _ _ _ H) as Hgrid.
  pose proof (rendered_above_items _ _ _ _ _ 6 2 H ltac:(lia)) as HB.
  pose proof (rendered_above_items _ _ _ _ _ 9 3 H ltac:(lia)) as HC.
  change (sheet_above_items env now details !! (6, 2))
    with (Some (VStr (customer_name details))) in HB.
  change (sheet_above_items env now details !! (9, 3))
    with (Some (VStr "Total Run Time")) in HC.
  split; [done|].
  apply create_invoice_inv in H as (_ & _ & sh & _ & _ & Hwidths).
  rewrite Hmax in Hwidths. change (seq 1 5) with [1; 2; 3; 4; 5] in Hwidths.
  rewrite adjust_widths_five in Hwidths. injection Hwidths as Hwidths.
  assert (Hlong : ∀ column,
    longest_in_column (cells wb) column
      (max_length_of (column_cells (cells wb) column))).
  { intros column. apply max_length_of_longest.
    intros row c v Hv. by apply Hgrid in Hv as [? _]. }
  split_and!.
  - intros column Hc.
    assert (column = 1 ∨ column = 2 ∨ column = 3 ∨ column = 4 ∨ column = 5)
      as [->|[->|[->|[->| ->]]]] by lia.
    + exists "A", (max_length_of (column_cells (cells wb) 1)).
      split_and!; [done| |done]. rewrite <-Hwidths.
      rewrite !lookup_insert_ne by done. apply lookup_insert_eq.
    + exists "B", (max_length_of (column_cells (cells wb) 2)).
      split_and!; [done| |done]. rewrite <-Hwidths.
      rewrite !lookup_insert_ne by done. apply lookup_insert_eq.
    + exists "C", (max_length_of (column_cells (cells wb) 3)).
      split_and!; [done| |done]. rewrite <-Hwidths.
      rewrite !lookup_insert_ne by done. apply lookup_insert_eq.
    + exists "D", (max_length_of (column_cells (cells wb) 4)).
      split_and!; [done| |done]. rewrite <-Hwidths.
      rewrite !lookup_insert_ne by done. apply lookup_insert_eq.
    + exists "E", (max_length_of (column_cells (cells wb) 5)).
      split_and!; [done| |done]. rewrite <-Hwidths.
      apply lookup_insert_eq.
  - intros letter. rewrite <-Hwidths.
    rewrite !lookup_insert_is_Some, lookup_empty, is_Some_alt.
    rewrite !elem_of_cons, elem_of_nil.
    intros [<-|[_ [<-|[_ [<-|[_ [<-|[_ [<-|[_ []]]]]]]]]]]; auto 10.
  - exists (max_length_of (column_cells (cells wb) 2)),
      (max_length_of (column_cells (cells wb) 3)).
    split_and!.
    + rewrite <-Hwidths. rewrite !lookup_insert_ne by done.
      apply lookup_insert_eq.
    + rewrite <-Hwidths. rewrite !lookup_insert_ne by done.
      apply lookup_insert_eq.
    + destruct (Hlong 2) as [Hall _]. by eapply Hall.
    + destruct (Hlong 3) as [Hall _]. by apply (Hall _ _ HC).
Qed.

Lemma sample_rendering :
  create_invoice sample_env sample_now sample_details
  = Ok (sample_filename, sample_workbook).
Proof. vm_compute. reflexivity. Defined.

Lemma column_widths_fit_witness :
  max_column (cells sample_workbook) = 5
  ∧ (∀ column, 1 ≤ column ≤ 5 →
       ∃ letter n,
         get_column_letter column = Ok letter
         ∧ column_widths sample_workbook !! letter = Some (n + 2)
         ∧ longest_in_column (cells sample_workbook) column n)
  ∧ (∀ letter, is_Some (column_widths sample_workbook !! letter) →
       letter ∈ ["A"; "B"; "C"; "D"; "E"])
  ∧ (∃ b c, column_widths sample_workbook !! "B" = Some (b + 2)
            ∧ column_widths sample_workbook !! "C" = Some (c + 2)
            ∧ characters (customer_name sample_details) ≤ b
            ∧ 14 ≤ c).
Proof.
  apply (column_widths_fit sample_env sample_now sample_details sample_filename).
  exact sample_rendering.
Defined.

(** ** An invoice without items *)

(** C2 (what the code does). With an empty list of items the frame has
    no ["Total Price"] column: [create_invoice] raises [KeyError] before
    any cell is written and no file is produced; so does the whole program
    when every work type is declined. *)
Theorem create_invoice_without_items :
  (∀ env now name address date title,
     create_invoice env now (InvoiceDetails name address date title [])
     = Raise (KeyError "Total Price"))
  ∧ (main sample_env sample_now
       (World ["Jane Doe"; "1 Main St"; "2024-03-01"; "Sample Title";
               "no"; "no"; "no"] [])).1
    = Raise (KeyError "Total Price").
Proof. split; [reflexivity|vm_compute; reflexivity]. Qed.

(** ** The file name *)

Lemma replace_go_space fuel s :
  String.length s ≤ fuel →
  Str.replace_go fuel " " "_" s = spaces_to_underscores s.
Proof.
  revert fuel. induction s as [|c s IH]; intros fuel Hlen.
  - by destruct fuel.
  - destruct fuel as [|fuel]; simpl in Hlen; [lia|].
    cbn [Str.replace_go Str.is_prefix spaces_to_underscores].
    rewrite (Ascii.eqb_sym " " c).
    destruct (Ascii.eqb c " ") eqn:Hc.
    + cbn [Str.is_prefix]. change ("_" +:+ ?x) with (String "_" x).
      f_equal. apply IH. lia.
    + f_equal. apply IH. lia.
Qed.

Lemma replace_space s : Str.replace " " "_" s = spaces_to_underscores s.
Proof. by apply replace_go_space. Qed.

Lemma spaces_to_underscores_length s :
  String.length (spaces_to_underscores s) = String.length s.
Proof. induction s; simpl; congruence. Qed.

Lemma zero_pad_length w s :
  String.length s ≤ w → String.length (Str.zero_pad w s) = w.
Proof.
  intros H. unfold Str.zero_pad.
  destruct (w - String.length s) as [|k] eqn:Hk; [lia|].
  enough (Hadd : ∀ a b, String.length (a +:+ b) = String.length a + String.length b).
  { rewrite Hadd.
    assert (Hrep : ∀ n, String.length (string_of_list_ascii (repeat "0"%char n)) = n).
    { induction n; simpl; congruence. }
    rewrite Hrep. lia. }
  induction a; intros b; simpl; [done|]. by rewrite IHa.
Qed.

(** A number below [10 ^ k] is printed with at most [k] digits. *)
Lemma pretty_N_go_length (k : nat) :
  ∀ (n : N) (s : string),
    (n < 10 ^ N.of_nat k)%N →
    String.length (pretty_N_go n s) ≤ String.length s + k.
Proof.
  induction k as [|k IH]; intros n s Hn.
  - assert (n = 0%N) as -> by (simpl in Hn; lia).
    rewrite pretty_N_go_0. lia.
  - destruct (decide (n = 0%N)) as [->|Hne].
    { rewrite pretty_N_go_0. lia. }
    rewrite pretty_N_go_step by lia.
    etrans; [apply IH|simpl; lia].
    rewrite Nat2N.inj_succ, N.pow_succ_r' in Hn.
    apply N.Div0.div_lt_upper_bound. lia.
Qed.

Lemma pretty_length_4 (n : N) : (n < 10000)%N → String.length (pretty n) ≤ 4.
Proof.
  intros Hn. unfold pretty, pretty_N. case_decide; [simpl; lia|].
  apply (pretty_N_go_length 4 n ""). simpl. lia.
Qed.

Lemma pretty_length_2 (n : N) : (n < 100)%N → String.length (pretty n) ≤ 2.
Proof.
  intros Hn. unfold pretty, pretty_N. case_decide; [simpl; lia|].
  apply (pretty_N_go_length 2 n ""). simpl. lia.
Qed.

Lemma string_app_length (a b : string) :
  String.length (a +:+ b) = String.length a + String.length b.
Proof. induction a; simpl; [done|]. by rewrite IHa. Qed.

(** C8. The file name of a rendered invoice is ["invoice_"], the customer
    name with every space replaced by an underscore, ["_"], the invoice
    date as entered, ["_"], the current date as eight digits (year, month,
    day), and [".xlsx"]. *)
Theorem filename_of_invoice (env : environ) (now : datetime)
    (details : invoice_details) (filename : string) (wb : workbook) :
  create_invoice env now details = Ok (filename, wb) →
  filename
  = "invoice_" +:+ spaces_to_underscores (customer_name details) +:+ "_"
      +:+ invoice_date details +:+ "_" +:+ strftime_Ymd now +:+ ".xlsx"
  ∧ strftime_Ymd now
    = Str.zero_pad 4 (pretty (year now)) +:+ Str.zero_pad 2 (pretty (month now))
        +:+ Str.zero_pad 2 (pretty (day now))
  ∧ ((year now < 10000)%N → (month now < 100)%N → (day now < 100)%N →
     String.length (strftime_Ymd now) = 8).
Proof.
  intros H. apply create_invoice_inv in H as (_ & -> & _).
  split_and!.
  - unfold invoice_filename. by rewrite replace_space.
  - done.
  - intros Hy Hm Hd. unfold strftime_Ymd.
    rewrite !string_app_length.
    rewrite (zero_pad_length 4) by by apply pretty_length_4.
    rewrite !(zero_pad_length 2) by by apply pretty_length_2.
    done.
Qed.

Lemma filename_of_invoice_witness :
  sample_filename
  = "invoice_" +:+ spaces_to_underscores (customer_name sample_details) +:+ "_"
      +:+ invoice_date sample_details +:+ "_" +:+ strftime_Ymd sample_now
      +:+ ".xlsx"
  ∧ strftime_Ymd sample_now
    = Str.zero_pad 4 (pretty (year sample_now))
        +:+ Str.zero_pad 2 (pretty (month sample_now))
        +:+ Str.zero_pad 2 (pretty (day sample_now))
  ∧ ((year sample_now < 10000)%N → (month sample_now < 100)%N →
     (day sample_now < 100)%N →
     String.length (strftime_Ymd sample_now) = 8).
Proof.
  apply (filename_of_invoice sample_env sample_now sample_details
           sample_filename sample_workbook).
  exact sample_rendering.
Defined.

(** ** Variables of the environment that are not set *)

(** C10. If rendering completes with an environment, it completes with
    the same file name when any of [NAME], [ADDRESS], [CITY_STATE_ZIP] and
    [SOCIAL_HANDLE] is not set; the cells of the biller block and of the
    payment instructions then hold the variable when it is set and no
    value when it is not. *)
Theorem unset_variables_leave_empty_cells (env env' : environ)
    (now : datetime) (details : invoice_details) (filename : string)
    (wb : workbook) :
  create_invoice env now details = Ok (filename, wb) →
  unset_some env env' →
  ∃ wb',
    create_invoice env' now details = Ok (filename, wb')
    ∧ cells wb' !! (1, 1) = Some (of_env (NAME env'))
    ∧ cells wb' !! (2, 1) = Some (of_env (ADDRESS env'))
    ∧ cells wb' !! (3, 1) = Some (of_env (CITY_STATE_ZIP env'))
    ∧ cells wb' !! (4, 1) = Some (of_env (SOCIAL_HANDLE env'))
    ∧ cells wb' !! (11 + length (items details) + 5, 2) = Some (of_env (NAME env'))
    ∧ cells wb' !! (11 + length (items details) + 6, 2)
      = Some (of_env (ADDRESS env'))
    ∧ cells wb' !! (11 + length (items details) + 7, 2)
      = Some (of_env (CITY_STATE_ZIP env'))
    ∧ of_env None = VNone
    ∧ truthy VNone = false.
Proof.
  intros H _.
  pose proof (create_invoice_completes _ _ _ _ _ H) as [Hne Hall].
  apply create_invoice_inv in H as (_ & -> & _).
  destruct (create_invoice_ok env' now details Hne Hall) as [wb' H'].
  exists wb'. split; [done|].
  pose proof (rendered_total_row _ _ _ _ _ H') as (_ & _ & _ & _ & H5 & H6 & H7).
  rewrite !(rendered_above_items _ _ _ _ _ _ _ H') by lia.
  by split_and!.
Qed.

Lemma unset_variables_leave_empty_cells_witness :
  ∃ wb',
    create_invoice (Environ None None None None) sample_now sample_details
    = Ok (sample_filename, wb')
    ∧ cells wb' !! (1, 1) = Some (of_env None)
    ∧ cells wb' !! (2, 1) = Some (of_env None)
    ∧ cells wb' !! (3, 1) = Some (of_env None)
    ∧ cells wb' !! (4, 1) = Some (of_env None)
    ∧ cells wb' !! (11 + length (items sample_details) + 5, 2) = Some (of_env None)
    ∧ cells wb' !! (11 + length (items sample_details) + 6, 2) = Some (of_env None)
    ∧ cells wb' !! (11 + length (items sample_details) + 7, 2) = Some (of_env None)
    ∧ of_env None = VNone
    ∧ truthy VNone = false.
Proof.
  apply (unset_variables_leave_empty_cells sample_env (Environ None None None None)
           sample_now sample_details sample_filename sample_workbook).
  - exact sample_rendering.
  - unfold unset_some. simpl. auto.
Defined.

(** ** Rounding in binary64 *)

Section Rounding.

Local Open Scope Z_scope.

Lemma digits2_pos_bounds (m : positive) :
  2 ^ (Zpos (digits2_pos m) - 1) ≤ Zpos m < 2 ^ Zpos (digits2_pos m).
Proof.
  induction m as [m IH|m IH|]; simpl digits2_pos.
  - rewrite Pos2Z.inj_succ.
    replace (Z.succ (Zpos (digits2_pos m)) - 1) with (Z.succ (Zpos (digits2_pos m) - 1)) by lia.
    rewrite !Z.pow_succ_r by lia. lia.
  - rewrite Pos2Z.inj_succ.
    replace (Z.succ (Zpos (digits2_pos m)) - 1) with (Z.succ (Zpos (digits2_pos m) - 1)) by lia.
    rewrite !Z.pow_succ_r by lia. lia.
  - simpl. lia.
Qed.

Lemma shr_1_m mrs : 0 ≤ shr_m mrs → shr_m (shr_1 mrs) = shr_m mrs / 2.
Proof.
  destruct mrs as [m r s]. cbn [shr_m]. intros Hm.
  destruct m as [|[p|p|]|p]; cbn [shr_1 shr_m]; [done| | |done|lia].
  - apply Z.div_unique with 1; lia.
  - apply Z.div_unique with 0; lia.
Qed.

Lemma iter_pos_shr_1_m (p : positive) :
  ∀ mrs, 0 ≤ shr_m mrs →
    shr_m (SpecFloat.iter_pos shr_1 p mrs) = shr_m mrs / 2 ^ Zpos p.
Proof.
  induction p as [p IH|p IH|]; intros mrs Hm; simpl SpecFloat.iter_pos.
  - assert (H1 : 0 ≤ shr_m (shr_1 mrs)).
    { rewrite shr_1_m by done. apply Z.div_pos; lia. }
    assert (H2 : 0 ≤ shr_m (SpecFloat.iter_pos shr_1 p (shr_1 mrs))).
    { rewrite IH by done. apply Z.div_pos; lia. }
    rewrite IH, IH, shr_1_m by done.
    rewrite !Z.div_div by lia. f_equal.
    replace (Zpos p~1) with (1 + Zpos p + Zpos p) by lia.
    rewrite !Z.pow_add_r by lia. lia.
  - assert (H2 : 0 ≤ shr_m (SpecFloat.iter_pos shr_1 p mrs)).
    { rewrite IH by done. apply Z.div_pos; lia. }
    rewrite IH, IH by done.
    rewrite !Z.div_div by lia. f_equal.
    replace (Zpos p~0) with (Zpos p + Zpos p) by lia.
    rewrite !Z.pow_add_r by lia. lia.
  - rewrite shr_1_m by done. done.
Qed.

(** The effect of [shr_fexp] on a non-negative mantissa. *)
Lemma shr_fexp_spec prec emax m e l :
  0 ≤ m →
  ∃ mrs' e',
    shr_fexp prec emax m e l = (mrs', e')
    ∧ ((0 < fexp prec emax (Zdigits2 m + e) - e
        ∧ shr_m mrs' = m / 2 ^ (fexp prec emax (Zdigits2 m + e) - e)
        ∧ e' = fexp prec emax (Zdigits2 m + e))
       ∨ (fexp prec emax (Zdigits2 m + e) - e ≤ 0
          ∧ mrs' = shr_record_of_loc m l ∧ e' = e)).
Proof.
  intros Hm. unfold shr_fexp, shr.
  assert (Hrec : shr_m (shr_record_of_loc m l) = m) by (by destruct l as [|[]]).
  destruct (fexp prec emax (Zdigits2 m + e) - e) as [|p|p] eqn:Hn.
  - eexists _, _. split; [done|]. right. split_and!; [lia|done|done].
  - eexists _, _. split; [done|]. left. split_and!; [lia| |lia].
    rewrite iter_pos_shr_1_m by lia. by rewrite Hrec.
  - eexists _, _. split; [done|]. right. split_and!; [lia|done|done].
Qed.

Lemma round_nearest_even_cases m l :
  round_nearest_even m l = m ∨ round_nearest_even m l = m + 1.
Proof. destruct l as [|[]]; simpl; try destruct (Z.even m); auto. Qed.

Lemma loc_of_shr_record_of_loc m l :
  loc_of_shr_record (shr_record_of_loc m l) = l.
Proof. by destruct l as [|[]]. Qed.

Lemma fexp_64 e : fexp 53 1024 e = Z.max (e - 53) (-1074).
Proof. reflexivity. Qed.

Lemma pow2_pos n : 0 < 2 ^ n ∨ (n < 0 ∧ 2 ^ n = 0).
Proof.
  destruct (Z_lt_le_dec n 0).
  - right. split; [done|]. by apply Z.pow_neg_r.
  - left. by apply Z.pow_pos_nonneg.
Qed.

(** Rounding a positive value below 60: the result is a zero or a
    finite number not above 60, with the sign asked for. The values are
    compared after scaling by [2 ^ (- k)], for an exponent [k] below all
    those at hand. *)
Lemma binary_round_aux_below_60 s (m : positive) e k :
  k ≤ e → k ≤ -1074 →
  Zpos m * 2 ^ (e - k) < 60 * 2 ^ (- k) →
  binary_round_aux 53 1024 s (Zpos m) e loc_Exact = S754_zero s
  ∨ ∃ m' e',
      binary_round_aux 53 1024 s (Zpos m) e loc_Exact = S754_finite s m' e'
      ∧ k ≤ e' ∧ Zpos m' * 2 ^ (e' - k) ≤ 60 * 2 ^ (- k).
Proof.
  intros Hke Hk Hlt. unfold binary_round_aux.
  destruct (shr_fexp_spec 53 1024 (Zpos m) e loc_Exact) as (mrs1 & e1 & -> & H1);
    [lia|].
  set (m2 := round_nearest_even (shr_m mrs1) (loc_of_shr_record mrs1)).
  assert (H2 : 0 ≤ m2 ∧ k ≤ e1 ∧ m2 * 2 ^ (e1 - k) ≤ 60 * 2 ^ (- k)).
  { destruct H1 as [(Hn & Hm1 & He1)|(Hn & -> & ->)].
    - (* some bits are shifted out *)
      set (d := Zpos (digits2_pos m)) in *.
      assert (Hd : d + e ≤ 6).
      { pose proof (digits2_pos_bounds m) as [Hlo _]. fold d in Hlo.
        assert (H64 : 60 * 2 ^ (- k) < 2 ^ (6 - k)).
        { replace (6 - k) with (6 + - k) by lia.
          rewrite Z.pow_add_r by lia.
          assert (0 < 2 ^ (- k)) by (apply Z.pow_pos_nonneg; lia).
          change (2 ^ 6) with 64. lia. }
        assert (Hpow : 2 ^ (d - 1 + (e - k)) < 2 ^ (6 - k)).
        { rewrite Z.pow_add_r by lia.
          assert (0 < 2 ^ (e - k)) by (apply Z.pow_pos_nonneg; lia).
          nia. }
        apply Z.pow_lt_mono_r_iff in Hpow; lia. }
      simpl Zdigits2 in *. fold d in Hn, Hm1, He1.
      rewrite fexp_64 in *.
      assert (He1' : e1 ≤ -47 ∧ e < e1 ∧ k ≤ e1) by lia.
      set (n := Z.max (d + e - 53) (-1074) - e) in *.
      assert (Hen : e1 = e + n) by lia.
      assert (Hdiv : shr_m mrs1 * 2 ^ n ≤ Zpos m ∧ 0 ≤ shr_m mrs1).
      { rewrite Hm1. split.
        - rewrite Z.mul_comm. apply Z.mul_div_le. apply Z.pow_pos_nonneg; lia.
        - apply Z.div_pos; [lia|]. apply Z.pow_pos_nonneg; lia. }
      destruct Hdiv as [Hdiv Hnn].
      assert (Hm2 : m2 = shr_m mrs1 ∨ m2 = shr_m mrs1 + 1)
        by apply round_nearest_even_cases.
      split; [lia|]. split; [lia|].
      assert (Hs : shr_m mrs1 * 2 ^ (e1 - k) < 60 * 2 ^ (- k)).
      { replace (e1 - k) with (n + (e - k)) by lia.
        rewrite Z.pow_add_r by lia.
        assert (0 < 2 ^ (e - k)) by (apply Z.pow_pos_nonneg; lia).
        nia. }
      assert (H60 : 60 * 2 ^ (- k) = 15 * 2 ^ (2 - e1) * 2 ^ (e1 - k)).
      { rewrite <-Z.mul_assoc, <-Z.pow_add_r by lia.
        replace (2 - e1 + (e1 - k)) with (2 + - k) by lia.
        rewrite Z.pow_add_r by lia. change (2 ^ 2) with 4. lia. }
      rewrite H60 in Hs |- *.
      assert (HP : 0 < 2 ^ (e1 - k)) by (apply Z.pow_pos_nonneg; lia).
      apply Z.mul_lt_mono_pos_r in Hs; [|done].
      apply Z.mul_le_mono_nonneg_r; lia.
    - (* nothing is shifted out *)
      subst m2. rewrite loc_of_shr_record_of_loc. simpl. lia. }
  destruct H2 as (Hm2 & Hke1 & Hle2).
  destruct (shr_fexp_spec 53 1024 m2 e1 loc_Exact) as (mrs3 & e3 & -> & H3);
    [done|].
  assert (H4 : 0 ≤ shr_m mrs3 ∧ k ≤ e3
               ∧ shr_m mrs3 * 2 ^ (e3 - k) ≤ 60 * 2 ^ (- k)).
  { destruct H3 as [(Hn & Hm3 & He3)|(Hn & -> & ->)].
    - set (n := fexp 53 1024 (Zdigits2 m2 + e1) - e1) in *.
      assert (Hen : e3 = e1 + n) by lia.
      assert (0 < 2 ^ n) by (apply Z.pow_pos_nonneg; lia).
      assert (Hdiv : shr_m mrs3 * 2 ^ n ≤ m2 ∧ 0 ≤ shr_m mrs3).
      { rewrite Hm3. split.
        - rewrite Z.mul_comm. by apply Z.mul_div_le.
        - by apply Z.div_pos. }
      destruct Hdiv as [Hdiv Hnn].
      split; [done|]. split; [lia|].
      replace (e3 - k) with (n + (e1 - k)) by lia.
      rewrite Z.pow_add_r by lia.
      assert (0 < 2 ^ (e1 - k)) by (apply Z.pow_pos_nonneg; lia).
      nia.
    - simpl. done. }
  destruct H4 as (Hm3 & Hke3 & Hle3).
  destruct (shr_m mrs3) as [|m'|m'] eqn:Hm'; [by left| |lia].
  right. exists m', e3.
  assert (He3 : e3 ≤ 1024 - 53).
  { assert (H64 : 60 * 2 ^ (- k) < 2 ^ (6 - k)).
    { replace (6 - k) with (6 + - k) by lia.
      rewrite Z.pow_add_r by lia.
      assert (0 < 2 ^ (- k)) by (apply Z.pow_pos_nonneg; lia).
      change (2 ^ 6) with 64. lia. }
    assert (Hpow : 2 ^ (e3 - k) < 2 ^ (6 - k)).
    { assert (0 < 2 ^ (e3 - k)) by (apply Z.pow_pos_nonneg; lia). nia. }
    apply Z.pow_lt_mono_r_iff in Hpow; lia. }
  apply Z.leb_le in He3. rewrite He3. done.
Qed.

Lemma pos_iter_xO (m d : positive) :
  Zpos (Pos.iter xO m d) = Zpos m * 2 ^ Zpos d.
Proof.
  induction d as [|d IH] using Pos.peano_ind.
  - simpl. lia.
  - rewrite Pos.iter_succ, Pos2Z.inj_xO, IH, Pos2Z.inj_succ, Z.pow_succ_r; lia.
Qed.

(** [shl_align] lowers the exponent, never below the one asked for,
    and keeps the value. *)
Lemma shl_align_spec m e e' :
  let '(mz, ez) := shl_align m e e' in
  ez = Z.min e e' ∧ Zpos mz = Zpos m * 2 ^ (e - ez).
Proof.
  unfold shl_align. destruct (e' - e) as [|d|d] eqn:Hd.
  - split; [lia|]. replace (e - e) with 0 by lia. simpl. lia.
  - split; [lia|]. replace (e - e) with 0 by lia. simpl. lia.
  - split; [lia|]. rewrite pos_iter_xO. f_equal. f_equal. lia.
Qed.

Lemma binary_round_below_60 s (m : positive) e k :
  k ≤ e → k ≤ -1074 →
  Zpos m * 2 ^ (e - k) < 60 * 2 ^ (- k) →
  binary_round 53 1024 s m e = S754_zero s
  ∨ ∃ m' e',
      binary_round 53 1024 s m e = S754_finite s m' e'
      ∧ k ≤ e' ∧ Zpos m' * 2 ^ (e' - k) ≤ 60 * 2 ^ (- k).
Proof.
  intros Hke Hk Hlt. unfold binary_round.
  pose proof (shl_align_spec m e (fexp 53 1024 (Zpos (digits2_pos m) + e))) as Hal.
  destruct (shl_align m e _) as [mz ez]. destruct Hal as [Hez Hmz].
  rewrite fexp_64 in Hez.
  apply binary_round_aux_below_60; [lia|lia|].
  rewrite Hmz, <-Z.mul_assoc, <-Z.pow_add_r by lia.
  by replace (e - ez + (ez - k)) with (e - k) by lia.
Qed.

Lemma of_Z_60 : F64.of_Z 60 = sixty.
Proof. vm_compute. reflexivity. Qed.

Lemma sixty_scaled ez k :
  k ≤ ez → ez ≤ -47 →
  8444249301319680 * 2 ^ (-47 - ez) * 2 ^ (ez - k) = 60 * 2 ^ (- k).
Proof.
  intros Hk Hez.
  rewrite <-Z.mul_assoc, <-Z.pow_add_r by lia.
  replace (-47 - ez + (ez - k)) with (-47 - k) by lia.
  replace (- k) with (47 + (-47 - k)) by lia.
  rewrite Z.pow_add_r by lia. change (2 ^ 47) with 140737488355328. lia.
Qed.

Lemma fmod_sixty sx mx ex :
  F64.fmod (S754_finite sx mx ex) sixty = S754_zero sx
  ∨ ∃ m' e' k,
      F64.fmod (S754_finite sx mx ex) sixty = S754_finite sx m' e'
      ∧ k ≤ e' ∧ k ≤ -1074
      ∧ Zpos m' * 2 ^ (e' - k) ≤ 60 * 2 ^ (- k).
Proof.
  unfold F64.fmod, sixty.
  set (ez := Z.min ex (-47)).
  pose proof (shl_align_spec mx ex ez) as Hx.
  pose proof (shl_align_spec 8444249301319680 (-47) ez) as Hy.
  destruct (shl_align mx ex ez) as [X ezx].
  destruct (shl_align 8444249301319680 (-47) ez) as [Y ezy].
  destruct Hx as [Hezx HX], Hy as [Hezy HY]. cbn [fst].
  assert (Hezy' : ezy = ez) by lia. rewrite Hezy' in HY. clear Hezx HX.
  pose proof (Z.mod_pos_bound (Zpos X) (Zpos Y) ltac:(lia)) as [Hr0 Hr1].
  set (k := Z.min ez (-1074)).
  destruct (Zpos X mod Zpos Y) as [|p|p] eqn:Hr; [by left|clear Hr0|lia].
  assert (Hround : binary_normalize F64.prec F64.emax (cond_Zopp sx (Zpos p)) ez sx
                   = binary_round 53 1024 sx p ez) by (by destruct sx).
  rewrite Hround.
  assert (Hp : Zpos p * 2 ^ (ez - k) < 60 * 2 ^ (- k)).
  { rewrite <-(sixty_scaled ez k) by lia. rewrite <-HY.
    apply Z.mul_lt_mono_pos_r; [apply Z.pow_pos_nonneg; lia|done]. }
  destruct (binary_round_below_60 sx p ez k ltac:(lia) ltac:(lia) Hp)
    as [->|(m' & e' & -> & Hke' & Hm')]; [by left|].
  right. exists m', e', k. split_and!; [done|done|lia|done].
Qed.

Lemma add_sixty_negative m' e' k :
  k ≤ e' → k ≤ -1074 →
  Zpos m' * 2 ^ (e' - k) ≤ 60 * 2 ^ (- k) →
  upto_60 (F64.add (S754_finite true m' e') sixty).
Proof.
  intros Hke' Hk Hm'.
  unfold F64.add, SFadd, sixty.
  set (ez2 := Z.min e' (-47)).
  pose proof (shl_align_spec m' e' ez2) as Ha.
  pose proof (shl_align_spec 8444249301319680 (-47) ez2) as Hb.
  destruct (shl_align m' e' ez2) as [A eza].
  destruct (shl_align 8444249301319680 (-47) ez2) as [B ezb].
  destruct Ha as [Heza HA], Hb as [Hezb HB]. cbn [fst cond_Zopp].
  assert (eza = ez2) as -> by lia. assert (ezb = ez2) as -> by lia.
  assert (HP : 0 < 2 ^ (ez2 - k)) by (apply Z.pow_pos_nonneg; lia).
  assert (HB' : Zpos B * 2 ^ (ez2 - k) = 60 * 2 ^ (- k)).
  { rewrite HB. apply sixty_scaled; lia. }
  assert (HA' : Zpos A * 2 ^ (ez2 - k) = Zpos m' * 2 ^ (e' - k)).
  { rewrite HA, <-Z.mul_assoc, <-Z.pow_add_r by lia.
    by replace (e' - ez2 + (ez2 - k)) with (e' - k) by lia. }
  assert (HAB : Zpos A ≤ Zpos B).
  { apply (Z.mul_le_mono_pos_r _ _ (2 ^ (ez2 - k))); [done|].
    rewrite HA', HB'. done. }
  destruct (- Zpos A + Zpos B) as [|q|q] eqn:Hq; [by left| |lia].
  cbn [binary_normalize]. unfold F64.prec, F64.emax.
  assert (Hq' : Zpos q * 2 ^ (ez2 - k) < 60 * 2 ^ (- k)).
  { rewrite <-HB'. apply Z.mul_lt_mono_pos_r; [done|lia]. }
  destruct (binary_round_below_60 false q ez2 k ltac:(lia) ltac:(lia) Hq')
    as [->|(m3 & e3 & -> & Hke3 & Hm3)]; [by left|].
  right. exists m3, e3, k. split_and!; [done|done|lia|done].
Qed.

Lemma rem_sixty_finite x :
  F64.is_finite x = true →
  ∃ r, F64.rem x (F64.of_Z 60) = Ok r ∧ upto_60 r.
Proof.
  rewrite of_Z_60. unfold F64.rem.
  change (SFeqb sixty F64.zero) with false. cbv zeta. cbn [negb].
  change (F64.ltb_zero sixty) with false.
  change (F64.sign_bit sixty) with false.
  destruct x as [s|s| |sx mx ex]; try discriminate; intros _.
  { (* a zero *)
    exists (S754_zero false). split; [by destruct s|by left]. }
  destruct (fmod_sixty sx mx ex) as [->|(m' & e' & k & -> & Hke' & Hk & Hm')].
  { exists (S754_zero false). split; [by destruct sx|by left]. }
  destruct sx.
  - (* the remainder is negative: 60 is added *)
    change (SFeqb (S754_finite true m' e') F64.zero) with false.
    change (F64.ltb_zero (S754_finite true m' e')) with true.
    cbn [negb Bool.eqb].
    eexists. split; [reflexivity|]. by eapply add_sixty_negative.
  - change (SFeqb (S754_finite false m' e') F64.zero) with false.
    change (F64.ltb_zero (S754_finite false m' e')) with false.
    cbn [negb Bool.eqb].
    eexists. split; [reflexivity|].
    right. exists m', e', k. split_and!; [done|done|lia|done].
Qed.

Lemma rem_sixty_not_finite x :
  F64.is_finite x = false → F64.rem x (F64.of_Z 60) = Ok F64.nan.
Proof. rewrite of_Z_60. by destruct x as [s|[]| |s m e]. Qed.

(** On such a float [int] and the floor agree, and lie between 0 and 60. *)
Lemma upto_60_floor r :
  upto_60 r →
  ∃ z, F64.to_int r = Ok z ∧ F64.floor r = Some z ∧ 0 ≤ z ≤ 60.
Proof.
  intros [->|(m & e & k & -> & Hke & Hk & Hle)].
  { exists 0. simpl. split_and!; [done|done|lia|lia]. }
  exists (Z.shiftl (Zpos m) e). cbn [F64.to_int F64.floor cond_Zopp].
  split_and!; [done|done|by apply Z.shiftl_nonneg|].
  destruct (Z_lt_le_dec e 0) as [Hneg|Hpos].
  - rewrite <-(Z.opp_involutive e) at 1. rewrite Z.shiftl_div_pow2 by lia.
    assert (HP : 0 < 2 ^ (e - k)) by (apply Z.pow_pos_nonneg; lia).
    assert (HQ : 0 < 2 ^ (- e)) by (apply Z.pow_pos_nonneg; lia).
    assert (H60 : 60 * 2 ^ (- k) = 60 * 2 ^ (- e) * 2 ^ (e - k)).
    { rewrite <-Z.mul_assoc, <-Z.pow_add_r by lia. do 2 f_equal. lia. }
    rewrite H60 in Hle. apply Z.mul_le_mono_pos_r in Hle; [|done].
    rewrite ?Z.opp_involutive.
    apply Z.div_le_upper_bound; lia.
  - rewrite Z.shiftl_mul_pow2 by lia.
    assert (HP : 0 < 2 ^ (- k)) by (apply Z.pow_pos_nonneg; lia).
    replace (e - k) with (e + - k) in Hle by lia.
    rewrite Z.pow_add_r, Z.mul_assoc in Hle by lia.
    by apply Z.mul_le_mono_pos_r in Hle.
Qed.

End Rounding.

(** ** Sums of whole numbers of cents *)

Section ExactSums.

Local Open Scope Z_scope.








Lemma is_quarters_of_scaled s m e a k :
  k ≤ e → k ≤ -2 →
  cond_Zopp s (Zpos m) * 2 ^ (e - k) = a * 2 ^ (-2 - k) →
  is_quarters (S754_finite s m e) a.
Proof.
  unfold is_quarters. set (c := Z.min e (-2)). intros Hke Hk2 H.
  replace (e - k) with ((e - c) + (c - k)) in H by lia.
  replace (-2 - k) with ((-2 - c) + (c - k)) in H by lia.
  rewrite !Z.pow_add_r, !Z.mul_assoc in H by lia.
  apply Z.mul_reg_r in H; [done|].
  assert (0 < 2 ^ (c - k)) by (apply Z.pow_pos_nonneg; lia). lia.
Qed.






















(** The fuel given by [series_sum] is enough: more changes nothing. *)
Lemma pairwise_sum_fuel fuel :
  ∀ fuel' (a : list float),
    (length a ≤ fuel)%nat → (length a ≤ fuel')%nat →
    pairwise_sum fuel a = pairwise_sum fuel' a.
Proof.
  induction fuel as [|fuel IH]; intros fuel' a H1 H2.
  { destruct a; [by destruct fuel'|simpl in H1; lia]. }
  destruct fuel' as [|fuel'].
  { destruct a; [done|simpl in H2; lia]. }
  cbn [pairwise_sum].
  destruct (Nat.ltb_spec (length a) 8); [done|].
  destruct (Nat.leb_spec (length a) 128); [done|].
  set (n2 := (length a `div` 2 - (length a `div` 2) `mod` 8)%nat).
  assert (Hn2 : (0 < n2 < length a)%nat).
  { unfold n2.
    pose proof (Nat.mod_upper_bound (length a `div` 2) 8 ltac:(done)).
    pose proof (Nat.Div0.div_lt_upper_bound (length a) 2 (length a)
                  ltac:(lia)).
    assert (64 ≤ length a `div` 2)%nat
      by (apply Nat.div_le_lower_bound; lia).
    lia. }
  f_equal; apply IH; rewrite ?length_take, ?length_drop; lia.
Qed.



End ExactSums.

(** ** The totals shown *)







(** ** The Total Run Time *)

Section RunTime.

Local Open Scope Z_scope.

Lemma to_int_finite x : is_ok (F64.to_int x) = F64.is_finite x.
Proof. by destruct x. Qed.

Lemma floor_rem_60_finite x :
  F64.is_finite x = true →
  ∃ r z, F64.rem x (F64.of_Z 60) = Ok r ∧ F64.to_int r = Ok z
         ∧ floor_rem_60 x = Some z ∧ 0 ≤ z ≤ 60.
Proof.
  intros Hx. destruct (rem_sixty_finite x Hx) as (r & Hr & Hup).
  destruct (upto_60_floor r Hup) as (z & Hz & Hfl & Hbound).
  exists r, z. unfold floor_rem_60. rewrite Hr. done.
Qed.

Lemma format_02_length z :
  0 ≤ z ≤ 60 → String.length (Str.format_02 z) = 2%nat.
Proof.
  intros Hz.
  assert (Hall : forallb (λ n, String.length (Str.format_02 (Z.of_nat n)) =? 2)%nat
                   (seq 0 61) = true) by (vm_compute; reflexivity).
  rewrite forallb_forall in Hall.
  specialize (Hall (Z.to_nat z)). rewrite Z2Nat.id in Hall by lia.
  apply Nat.eqb_eq, Hall, in_seq. lia.
Qed.

(** The run time is formatted exactly when the hours and the two
    products are finite; the minutes and the seconds are then the floors
    of the two remainders. *)
Lemma run_time_finite hours :
  F64.is_finite hours = true →
  F64.is_finite (F64.mul hours (F64.of_Z 60)) = true →
  F64.is_finite (F64.mul hours (F64.of_Z 3600)) = true →
  ∃ h minutes seconds,
    F64.to_int hours = Ok h
    ∧ floor_rem_60 (F64.mul hours (F64.of_Z 60)) = Some minutes
    ∧ floor_rem_60 (F64.mul hours (F64.of_Z 3600)) = Some seconds
    ∧ 0 ≤ minutes ≤ 60 ∧ 0 ≤ seconds ≤ 60
    ∧ run_time hours
      = Ok (Str.format_02 h +:+ ":" +:+ Str.format_02 minutes +:+ ":"
              +:+ Str.format_02 seconds).
Proof.
  intros Hh Hm Hs. unfold run_time.
  destruct (F64.to_int hours) as [h|e] eqn:Hint.
  2:{ pose proof (to_int_finite hours) as Hf. rewrite Hint, Hh in Hf. done. }
  destruct (floor_rem_60_finite _ Hm) as (rm & zm & Hrm & Hzm & Hfm & Hbm).
  destruct (floor_rem_60_finite _ Hs) as (rs & zs & Hrs & Hzs & Hfs & Hbs).
  exists h, zm, zs. cbn [mbind result_bind].
  rewrite Hrm. cbn [mbind result_bind]. rewrite Hzm. cbn [mbind result_bind].
  rewrite Hrs. cbn [mbind result_bind]. rewrite Hzs. cbn [mbind result_bind].
  split_and!; (done || lia).
Qed.

Lemma run_time_ok hours :
  is_ok (run_time hours)
  = F64.is_finite hours
    && F64.is_finite (F64.mul hours (F64.of_Z 60))
    && F64.is_finite (F64.mul hours (F64.of_Z 3600)).
Proof.
  destruct (F64.is_finite hours) eqn:Hh.
  2:{ unfold run_time. pose proof (to_int_finite hours) as Hf.
      rewrite Hh in Hf. by destruct (F64.to_int hours). }
  destruct (F64.is_finite (F64.mul hours (F64.of_Z 60))) eqn:Hm.
  2:{ unfold run_time. destruct (F64.to_int hours); [|done].
      cbn [mbind result_bind]. rewrite (rem_sixty_not_finite _ Hm).
      reflexivity. }
  destruct (F64.is_finite (F64.mul hours (F64.of_Z 3600))) eqn:Hs.
  2:{ unfold run_time. destruct (F64.to_int hours); [|done].
      cbn [mbind result_bind].
      destruct (floor_rem_60_finite _ Hm) as (rm & zm & Hrm & Hzm & _).
      rewrite Hrm. cbn [mbind result_bind]. rewrite Hzm.
      cbn [mbind result_bind]. rewrite (rem_sixty_not_finite _ Hs).
      reflexivity. }
  destruct (run_time_finite hours Hh Hm Hs) as (h & m & s & _ & _ & _ & _ & _ & ->).
  done.
Qed.

End RunTime.

(** C6 (as stated) fails: an item of 1e305 hours, which the collector
    accepts, has finite non-negative hours, but [hours * 3600] overflows,
    the remainder is not a number, and rendering raises [ValueError]: no
    Total Run Time cell is written. *)
Lemma run_time_of_long_item_raises :
  (get_items DEFAULT_RATES (World ["yes"; "1e305"; "no"; "no"] [])).1
  = Ok [long_item]
  ∧ F64.is_finite (Hours long_item) = true
  ∧ SFleb F64.zero (Hours long_item) = true
  ∧ floor_rem_60 (F64.mul (Hours long_item) (F64.of_Z 3600)) = None
  ∧ run_time (Hours long_item) = Raise ValueError
  ∧ create_invoice sample_env sample_now
      (InvoiceDetails "Jane Doe" "1 Main St" "2024-03-01" "Sample Title"
         [long_item])
    = Raise ValueError.
Proof. repeat (split; [vm_compute; reflexivity|]). vm_compute. reflexivity. Qed.

(** C6 (amended). For every line item of an invoice that is rendered,
    the Total Run Time cell is [int(hours)], then the floor of [(hours *
    60) % 60], then the floor of [(hours * 3600) % 60], in floating-point
    arithmetic, each formatted with width two and zero padding and
    separated by colons; the minutes and the seconds lie between 0 and 60
    and take exactly two digits. The run time of an item can be formatted
    exactly when its hours, [hours * 60] and [hours * 3600] are finite;
    1.5 hours give ["01:30:00"] and 0 hours give ["00:00:00"]. *)
Theorem run_time_cell (env : environ) (now : datetime)
    (details : invoice_details) (filename : string) (wb : workbook)
    (i : nat) (it : item) :
  create_invoice env now details = Ok (filename, wb) →
  items details !! i = Some it →
  (∃ h minutes seconds,
     F64.to_int (Hours it) = Ok h
     ∧ floor_rem_60 (F64.mul (Hours it) (F64.of_Z 60)) = Some minutes
     ∧ floor_rem_60 (F64.mul (Hours it) (F64.of_Z 3600)) = Some seconds
     ∧ (0 ≤ minutes ≤ 60)%Z ∧ (0 ≤ seconds ≤ 60)%Z
     ∧ String.length (Str.format_02 minutes) = 2
     ∧ String.length (Str.format_02 seconds) = 2
     ∧ cells wb !! (11 + i, 3)
       = Some (VStr (Str.format_02 h +:+ ":" +:+ Str.format_02 minutes +:+ ":"
                       +:+ Str.format_02 seconds)))
  ∧ (∀ hours,
       is_ok (run_time hours)
       = F64.is_finite hours
         && F64.is_finite (F64.mul hours (F64.of_Z 60))
         && F64.is_finite (F64.mul hours (F64.of_Z 3600)))
  ∧ run_time (F64.of_decimal false 15 (-1)) = Ok "01:30:00"
  ∧ run_time F64.zero = Ok "00:00:00".
Proof.
  intros H Hi.
  split; [|split; [exact run_time_ok|split; vm_compute; reflexivity]].
  pose proof (rendered_item_row _ _ _ _ _ _ _ H Hi)
    as (_ & _ & (time & Htime & Hcell) & _).
  pose proof (run_time_ok (Hours it)) as Hok. rewrite Htime in Hok.
  symmetry in Hok. apply andb_prop in Hok as [Hok Hs].
  apply andb_prop in Hok as [Hh Hm].
  destruct (run_time_finite _ Hh Hm Hs)
    as (h & minutes & seconds & Hint & Hfm & Hfs & Hbm & Hbs & Hrt).
  exists h, minutes, seconds.
  rewrite Hrt in Htime. injection Htime as <-.
  split_and!; try (done || lia); by apply format_02_length.
Qed.

Lemma run_time_cell_witness :
  (∃ h minutes seconds,
     F64.to_int (F64.of_Z 2) = Ok h
     ∧ floor_rem_60 (F64.mul (F64.of_Z 2) (F64.of_Z 60)) = Some minutes
     ∧ floor_rem_60 (F64.mul (F64.of_Z 2) (F64.of_Z 3600)) = Some seconds
     ∧ (0 ≤ minutes ≤ 60)%Z ∧ (0 ≤ seconds ≤ 60)%Z
     ∧ String.length (Str.format_02 minutes) = 2
     ∧ String.length (Str.format_02 seconds) = 2
     ∧ cells sample_workbook !! (11 + 0, 3)
       = Some (VStr (Str.format_02 h +:+ ":" +:+ Str.format_02 minutes +:+ ":"
                       +:+ Str.format_02 seconds)))
  ∧ (∀ hours,
       is_ok (run_time hours)
       = F64.is_finite hours
         && F64.is_finite (F64.mul hours (F64.of_Z 60))
         && F64.is_finite (F64.mul hours (F64.of_Z 3600)))
  ∧ run_time (F64.of_decimal false 15 (-1)) = Ok "01:30:00"
  ∧ run_time F64.zero = Ok "00:00:00".
Proof.
  apply (run_time_cell sample_env sample_now sample_details sample_filename
           sample_workbook 0
           (Item "audiobook editing" (F64.of_Z 2) (F64.of_Z 50) (F64.of_Z 100))).
  - exact sample_rendering.
  - reflexivity.
Defined.

(** * Further properties *)

(** ** The collector on any input *)

Section CollectorAnyInput.

Implicit Types (rates_dict : Dict.t float) (items : list item) (w : world).

Lemma getitem_keys {V} (d : Dict.t V) k :
  k ∈ Dict.keys d → ∃ v, Dict.getitem d k = Ok v ∧ (k, v) ∈ d.
Proof.
  unfold Dict.keys. induction d as [|[k' v'] d IH]; simpl; intros Hk.
  - by apply elem_of_nil in Hk.
  - destruct (String.eqb_spec k' k) as [->|Hne].
    + exists v'. split; [done|]. by apply elem_of_cons; left.
    + apply elem_of_cons in Hk as [->|Hk]; [done|].
      destruct (IH Hk) as (v & Hv & Hin). exists v. split; [done|].
      by apply elem_of_cons; right.
Qed.

(** One work type, on any input. *)
Lemma get_items_step_any rates_dict items work_type w :
  work_type ∈ Dict.keys rates_dict →
  match get_items_step rates_dict items work_type w with
  | (Ok its, w') =>
      ∃ consumed new said,
        stdin w = consumed ++ stdin w'
        ∧ 1 ≤ length consumed ≤ 2
        ∧ its = items ++ new
        ∧ (Type_of_Work <$> new) `sublist_of` [work_type]
        ∧ Forall (λ it, Total_Price it = F64.mul (Hours it) (Hourly_Rate it)
                        ∧ (Type_of_Work it, Hourly_Rate it) ∈ rates_dict) new
        ∧ stdout w' = stdout w ++ question work_type :: said
  | (Raise e, w') =>
      e = EOFError ∧ stdin w' = [] ∧ length (stdin w) < 2
  end.
Proof.
  intros Hk. destruct (getitem_keys _ _ Hk) as (rate & Hrate & Hin).
  destruct w as [[|answer ins] out].
  { vm_compute stdin.
    unfold get_items_step, get_items_step_with, mbind, io_bind, input. simpl.
    split_and!; [done|done|lia]. }
  destruct (performed_yes answer) eqn:Hyes.
  2:{ rewrite step_declined by done. exists [answer], [], [].
      simpl. rewrite app_nil_r. split_and!; try done; try lia.
      apply sublist_nil_l. }
  destruct ins as [|text ins].
  { unfold get_items_step, get_items_step_with, mbind, io_bind, input,
      try_except_ValueError. simpl.
    rewrite Hyes. simpl.
    split_and!; [done|done|lia]. }
  destruct (F64.of_str text) as [hours|e] eqn:Hf.
  - rewrite (step_accepted _ _ _ _ _ hours rate) by done.
    exists [answer; text], [Item work_type hours rate (F64.mul hours rate)],
      [hours_prompt].
    simpl. split_and!; try done; try lia.
    constructor; [|constructor]. done.
  - apply of_str_raises in Hf as Hv. subst e.
    rewrite step_refused by done.
    exists [answer; text], [], [hours_prompt; warning].
    simpl. rewrite app_nil_r. split_and!; try done; try lia.
    apply sublist_nil_l.
Qed.

(** The loop, on any input. *)
Lemma get_items_loop_any rates_dict work_types :
  work_types ⊆ Dict.keys rates_dict →
  ∀ items w,
    match get_items_loop rates_dict work_types items w with
    | (Ok its, w') => collector_outcome rates_dict work_types items w its w'
    | (Raise e, w') =>
        e = EOFError ∧ stdin w' = []
        ∧ length (stdin w) < 2 * length work_types
    end.
Proof.
  induction work_types as [|work_type rest IH]; intros Hsub items w.
  { simpl. exists [], [], []. simpl. rewrite !app_nil_r.
    split_and!; try done; try lia; apply sublist_nil_l. }
  assert (Hk : work_type ∈ Dict.keys rates_dict).
  { apply Hsub. by apply elem_of_cons; left. }
  assert (Hrest : rest ⊆ Dict.keys rates_dict).
  { intros k Hin. apply Hsub. by apply elem_of_cons; right. }
  pose proof (get_items_step_any rates_dict items work_type w Hk) as Hstep.
  unfold get_items_loop. cbn [get_items_loop_with].
  change (get_items_loop_with F64.of_str) with get_items_loop.
  change (get_items_step_with F64.of_str) with get_items_step.
  unfold mbind at 1, io_bind at 1.
  destruct (get_items_step rates_dict items work_type w) as [[its1|e] w1].
  2:{ destruct Hstep as (-> & -> & Hlen). split_and!; [done|done|simpl; lia]. }
  destruct Hstep as (c1 & new1 & said1 & Hin1 & Hlen1 & -> & Hsub1 & Hall1 & Hout1).
  specialize (IH Hrest (items ++ new1) w1).
  destruct (get_items_loop rates_dict rest (items ++ new1) w1) as [[its|e] w'].
  - destruct IH as (c2 & new2 & said2 & Hin2 & Hlen2 & -> & Hsub2 & Hall2 & Hout2 & Hq2).
    exists (c1 ++ c2), (new1 ++ new2), (question work_type :: said1 ++ said2).
    split_and!.
    + by rewrite Hin1, Hin2, app_assoc.
    + rewrite length_app. simpl. lia.
    + rewrite length_app. simpl. lia.
    + by rewrite app_assoc.
    + rewrite fmap_app. by apply (sublist_app _ [work_type] _ rest).
    + by apply Forall_app.
    + rewrite Hout2, Hout1, <-app_assoc. done.
    + simpl. apply sublist_skip. by apply sublist_inserts_l.
  - destruct IH as (-> & -> & Hlen). split_and!; [done|done|].
    rewrite Hin1, length_app. simpl. lia.
Qed.

End CollectorAnyInput.

Lemma get_items_any (rates_dict : Dict.t float) (w : world) :
  match get_items rates_dict w with
  | (Ok its, w') =>
      collector_outcome rates_dict (Dict.keys rates_dict) [] w its w'
  | (Raise e, w') =>
      e = EOFError ∧ stdin w' = []
      ∧ length (stdin w) < 2 * length rates_dict
  end.
Proof.
  unfold get_items, get_items_with.
  change (get_items_loop_with F64.of_str) with get_items_loop.
  pose proof (get_items_loop_any rates_dict (Dict.keys rates_dict)
                ltac:(done) [] w) as Hany.
  destruct (get_items_loop _ _ _ _) as [[its|e] w']; [done|].
  unfold Dict.keys in Hany. by rewrite length_fmap in Hany.
Qed.

(** X1. [get_items] raises nothing but [EOFError], and only when the
    input has run out: fewer than two lines per work type were left.  No
    answer and no hours text makes it raise. *)
Theorem get_items_raises_only_at_end_of_input (rates_dict : Dict.t float)
    (w w' : world) (e : exn) :
  get_items rates_dict w = (Raise e, w') →
  e = EOFError ∧ stdin w' = [] ∧ length (stdin w) < 2 * length rates_dict.
Proof.
  intros H. pose proof (get_items_any rates_dict w) as Hany.
  by rewrite H in Hany.
Qed.

Lemma get_items_raises_only_at_end_of_input_witness :
  EOFError = EOFError
  ∧ stdin (World [] ["Did you perform: audiobook editing? "; "Enter hours: "]) = []
  ∧ length (stdin (World ["yes"] [])) < 2 * length DEFAULT_RATES.
Proof.
  apply (get_items_raises_only_at_end_of_input DEFAULT_RATES (World ["yes"] [])).
  reflexivity.
Defined.

(** X2. With at least two lines of input per work type [get_items]
    returns, whatever the lines say. *)
Theorem get_items_returns_with_enough_lines (rates_dict : Dict.t float)
    (w : world) :
  2 * length rates_dict ≤ length (stdin w) →
  ∃ its w', get_items rates_dict w = (Ok its, w').
Proof.
  intros Hlen. pose proof (get_items_any rates_dict w) as Hany.
  destruct (get_items rates_dict w) as [[its|e] w']; [eauto|].
  destruct Hany as (_ & _ & Hlt). lia.
Qed.

Lemma get_items_returns_with_enough_lines_witness :
  ∃ its w',
    get_items DEFAULT_RATES (World ["x"; "yes"; "-"; "Yes"; "1e5"; "YES"] [])
    = (Ok its, w').
Proof.
  apply (get_items_returns_with_enough_lines DEFAULT_RATES
           (World ["x"; "yes"; "-"; "Yes"; "1e5"; "YES"] [])).
  simpl. lia.
Defined.

(** X3. On any input, when [get_items] returns it has read between one
    and two lines per work type, from the front of the input, has asked
    about every work type in the order of the table, and returns at most
    one entry per work type, in that order, each with the rate of the
    table and the product of hours and rate as its total. *)
Theorem get_items_outcome (rates_dict : Dict.t float) (w w' : world)
    (its : list item) :
  get_items rates_dict w = (Ok its, w') →
  (∃ consumed said,
     stdin w = consumed ++ stdin w'
     ∧ length rates_dict ≤ length consumed ≤ 2 * length rates_dict
     ∧ stdout w' = stdout w ++ said
     ∧ (question <$> Dict.keys rates_dict) `sublist_of` said)
  ∧ (Type_of_Work <$> its) `sublist_of` Dict.keys rates_dict
  ∧ length its ≤ length rates_dict
  ∧ Forall (λ it, Total_Price it = F64.mul (Hours it) (Hourly_Rate it)
                  ∧ (Type_of_Work it, Hourly_Rate it) ∈ rates_dict) its
  ∧ (Dict.wf rates_dict → NoDup (Type_of_Work <$> its)).
Proof.
  intros H. pose proof (get_items_any rates_dict w) as Hany.
  rewrite H in Hany.
  destruct Hany as (consumed & new & said & Hin & Hlen & -> & Hsub & Hall & Hout & Hq).
  simpl. unfold Dict.keys in Hlen. rewrite length_fmap in Hlen.
  split_and!.
  - by exists consumed, said.
  - done.
  - apply sublist_length in Hsub. unfold Dict.keys in Hsub.
    by rewrite !length_fmap in Hsub.
  - done.
  - intros Hwf. by eapply sublist_NoDup.
Qed.
Lemma get_items_outcome_witness :
  (∃ consumed said,
     stdin (World ["yes"; "2"; "no"; "no"; "left"] [])
     = consumed ++ stdin (World ["left"] ["Did you perform: audiobook editing? ";
          "Enter hours: "; "Did you perform: audiobook proofing? ";
          "Did you perform: extra editing? "])
     ∧ length DEFAULT_RATES ≤ length consumed ≤ 2 * length DEFAULT_RATES
     ∧ stdout (World ["left"] ["Did you perform: audiobook editing? ";
          "Enter hours: "; "Did you perform: audiobook proofing? ";
          "Did you perform: extra editing? "])
       = stdout (World ["yes"; "2"; "no"; "no"; "left"] []) ++ said
     ∧ (question <$> Dict.keys DEFAULT_RATES) `sublist_of` said)
  ∧ (Type_of_Work <$> items sample_details) `sublist_of` Dict.keys DEFAULT_RATES
  ∧ length (items sample_details) ≤ length DEFAULT_RATES
  ∧ Forall (λ it, Total_Price it = F64.mul (Hours it) (Hourly_Rate it)
                  ∧ (Type_of_Work it, Hourly_Rate it) ∈ DEFAULT_RATES)
      (items sample_details)
  ∧ (Dict.wf DEFAULT_RATES → NoDup (Type_of_Work <$> items sample_details)).
Proof.
  apply (get_items_outcome DEFAULT_RATES (World ["yes"; "2"; "no"; "no"; "left"] [])).
  vm_compute. reflexivity.
Defined.

(** ** The invoice details on any input *)

Lemma get_invoice_details_any (w : world) :
  match get_invoice_details w with
  | (Ok details, w') =>
      ∃ name address date title rest,
        stdin w = name :: address :: date :: title :: rest
        ∧ details = InvoiceDetails name address date title (items details)
        ∧ get_items DEFAULT_RATES (World rest (stdout w ++ header_prompts))
          = (Ok (items details), w')
  | (Raise e, w') =>
      e = EOFError ∧ stdin w' = [] ∧ length (stdin w) < 10
  end.
Proof.
  destruct w as [ins out]. unfold get_invoice_details.
  destruct ins as [|name [|address [|date [|title rest]]]];
    [vm_compute; split_and!; [done|done|lia]..|].
  unfold mbind at 1 2 3 4 5, io_bind, input. cbn [stdin stdout].
  replace ((((out ++ ["Enter customer name: "]) ++ ["Enter customer address: "])
             ++ ["Enter invoice date (YYYY-MM-DD): "])
             ++ ["Enter the title of the book: "])
    with (out ++ header_prompts) by (by rewrite <-!app_assoc).
  destruct (get_items DEFAULT_RATES (World rest (out ++ header_prompts)))
    as [[its|e] w'] eqn:Hitems.
  - exists name, address, date, title, rest. by split_and!.
  - pose proof (get_items_any DEFAULT_RATES (World rest (out ++ header_prompts)))
      as Hany.
    rewrite Hitems in Hany. destruct Hany as (-> & -> & Hlen).
    simpl in *. split_and!; [done|done|lia].
Qed.

(** X4. When [get_invoice_details] returns, the name, the address, the
    date and the title are the first four lines of the input, kept as
    typed, and the items are those [get_items] collects for
    [DEFAULT_RATES] from the lines that follow: at most three, in the
    order of the table. *)
Theorem get_invoice_details_outcome (w w' : world) (details : invoice_details) :
  get_invoice_details w = (Ok details, w') →
  ∃ rest,
    stdin w = customer_name details :: customer_address details
                :: invoice_date details :: book_title details :: rest
    ∧ get_items DEFAULT_RATES (World rest (stdout w ++ header_prompts))
      = (Ok (items details), w')
    ∧ length (items details) ≤ 3
    ∧ (Type_of_Work <$> items details) `sublist_of` Dict.keys DEFAULT_RATES.
Proof.
  intros H. pose proof (get_invoice_details_any w) as Hany. rewrite H in Hany.
  destruct Hany as (name & address & date & title & rest & Hin & Hd & Hitems).
  exists rest. rewrite Hd. simpl. split_and!; [done|done|..].
  - pose proof (get_items_any DEFAULT_RATES (World rest (stdout w ++ header_prompts)))
      as Hany. rewrite Hitems in Hany.
    destruct Hany as (consumed & new & said & _ & _ & Hnew & Hsub & _).
    simpl in Hnew. rewrite Hnew. apply sublist_length in Hsub.
    by rewrite length_fmap in Hsub.
  - pose proof (get_items_any DEFAULT_RATES (World rest (stdout w ++ header_prompts)))
      as Hany. rewrite Hitems in Hany.
    destruct Hany as (consumed & new & said & _ & _ & Hnew & Hsub & _).
    simpl in Hnew. by rewrite Hnew.
Qed.

Lemma get_invoice_details_outcome_witness :
  ∃ rest,
    stdin (World sample_input [])
    = customer_name sample_details :: customer_address sample_details
        :: invoice_date sample_details :: book_title sample_details :: rest
    ∧ get_items DEFAULT_RATES
        (World rest (stdout (World sample_input []) ++ header_prompts))
      = (Ok (items sample_details), sample_world_collected)
    ∧ length (items sample_details) ≤ 3
    ∧ (Type_of_Work <$> items sample_details) `sublist_of` Dict.keys DEFAULT_RATES.
Proof.
  apply (get_invoice_details_outcome (World sample_input [])
           sample_world_collected sample_details).
  vm_compute. reflexivity.
Defined.

(** X5. [get_invoice_details] raises nothing but [EOFError], and only
    when fewer than ten lines of input were left. *)
Theorem get_invoice_details_raises_only_at_end_of_input (w w' : world) (e : exn) :
  get_invoice_details w = (Raise e, w') →
  e = EOFError ∧ stdin w' = [] ∧ length (stdin w) < 10.
Proof.
  intros H. pose proof (get_invoice_details_any w) as Hany. by rewrite H in Hany.
Qed.

Lemma get_invoice_details_raises_only_at_end_of_input_witness :
  EOFError = EOFError
  ∧ stdin (World [] ["Enter customer name: "; "Enter customer address: ";
                     "Enter invoice date (YYYY-MM-DD): "]) = []
  ∧ length (stdin (World ["Jane Doe"; "1 Main St"] [])) < 10.
Proof.
  apply (get_invoice_details_raises_only_at_end_of_input
           (World ["Jane Doe"; "1 Main St"] [])).
  vm_compute. reflexivity.
Defined.

(** ** When rendering completes *)

Section Failures.

Implicit Types (env : environ) (now : datetime) (details : invoice_details).

Lemma run_time_raises hours e :
  run_time hours = Raise e →
  (e = OverflowError ∧ ∃ s, hours = S754_infinity s)
  ∨ (e = ValueError ∧ (hours = F64.nan ∨ F64.is_finite hours = true)).
Proof.
  intros H. destruct hours as [s|s| |s m ex].
  - pose proof (run_time_ok (S754_zero s)) as Hok. rewrite H in Hok.
    by destruct s.
  - left. split; [|by exists s]. unfold run_time in H. simpl in H. congruence.
  - right. split; [|by left]. unfold run_time in H. simpl in H. congruence.
  - right. split; [|by right].
    unfold run_time in H. cbn [F64.to_int mbind result_bind] in H.
    set (h := S754_finite s m ex) in *.
    destruct (F64.is_finite (F64.mul h (F64.of_Z 60))) eqn:Hm.
    2:{ rewrite (rem_sixty_not_finite _ Hm) in H. simpl in H. congruence. }
    destruct (floor_rem_60_finite _ Hm) as (rm & zm & Hrm & Hzm & _).
    rewrite Hrm in H. cbn [mbind result_bind] in H.
    rewrite Hzm in H. cbn [mbind result_bind] in H.
    destruct (F64.is_finite (F64.mul h (F64.of_Z 3600))) eqn:Hs.
    2:{ rewrite (rem_sixty_not_finite _ Hs) in H. simpl in H. congruence. }
    destruct (floor_rem_60_finite _ Hs) as (rs & zs & Hrs & Hzs & _).
    rewrite Hrs in H. cbn [mbind result_bind] in H.
    rewrite Hzs in H. done.
Qed.

Lemma forallb_run_time_ok (items : list item) :
  forallb (hours_renderable ∘ Hours) items = true
  ↔ Forall (λ it, is_ok (run_time (Hours it)) = true) items.
Proof.
  rewrite forallb_forall, Forall_forall. unfold hours_renderable.
  split; intros H it Hin.
  - rewrite run_time_ok. apply H. by apply list_elem_of_In.
  - simpl. rewrite <-run_time_ok. apply H. by apply list_elem_of_In.
Qed.

End Failures.

(** X6. [create_invoice] completes only when there is at least one item
    and the hours of every item, and their products with 60 and 3600, are
    finite. *)
Theorem create_invoice_completes_only_if (env : environ) (now : datetime)
    (details : invoice_details) (filename : string) (wb : workbook) :
  create_invoice env now details = Ok (filename, wb) →
  items details ≠ []
  ∧ forallb (hours_renderable ∘ Hours) (items details) = true.
Proof.
  intros H. apply create_invoice_completes in H as [Hne Hall].
  split; [done|]. by apply forallb_run_time_ok.
Qed.

Lemma create_invoice_completes_only_if_witness :
  items sample_details ≠ []
  ∧ forallb (hours_renderable ∘ Hours) (items sample_details) = true.
Proof.
  apply (create_invoice_completes_only_if sample_env sample_now sample_details
           sample_filename sample_workbook).
  exact sample_rendering.
Defined.

(** X7. When the run time of an item cannot be formatted, the hours are
    not renderable and the exception is [OverflowError] for infinite
    hours and [ValueError] otherwise: for hours that are not a number, and
    for finite hours whose product with 60 or 3600 overflows. *)
Theorem run_time_raises_classified (hours : float) (e : exn) :
  run_time hours = Raise e →
  hours_renderable hours = false
  ∧ ((e = OverflowError ∧ ∃ s, hours = S754_infinity s)
     ∨ (e = ValueError ∧ (hours = F64.nan ∨ F64.is_finite hours = true))).
Proof.
  intros H. split; [|by apply run_time_raises].
  unfold hours_renderable. rewrite <-run_time_ok, H. done.
Qed.

Lemma run_time_raises_classified_witness :
  hours_renderable (Hours long_item) = false
  ∧ ((ValueError = OverflowError ∧ ∃ s, Hours long_item = S754_infinity s)
     ∨ (ValueError = ValueError
        ∧ (Hours long_item = F64.nan ∨ F64.is_finite (Hours long_item) = true))).
Proof.
  apply (run_time_raises_classified (Hours long_item) ValueError).
  vm_compute. reflexivity.
Defined.

(** ** The layout of the sheet *)

Section Layout.

Implicit Types (env : environ) (now : datetime) (details : invoice_details).
Implicit Types (sh : sheet) (v : value) (row column : nat).

Lemma set_cell_rows_upto n row column v sh :
  row ≤ n → rows_upto n sh → rows_upto n (set_cell row column v sh).
Proof.
  intros Hr Hsh row' column' v'. unfold set_cell.
  destruct (decide ((row, column) = (row', column'))) as [[= <- <-]|Hne].
  - done.
  - rewrite lookup_insert_ne by done. apply Hsh.
Qed.

Lemma sheet_above_items_rows env now details :
  rows_upto 10 (sheet_above_items env now details).
Proof.
  assert (Hany : ∀ sh, rows_upto 10 sh →
            rows_upto 10
              (set_cell 10 2 (VStr (book_title details))
                 (write_header 1 itemized_header
                    (add_header_information env now (customer_name details)
                       (customer_address details) (invoice_date details) sh)))).
  { intros sh Hsh. unfold add_header_information, set_ref, itemized_header.
    cbn [write_header].
    by repeat (apply set_cell_rows_upto; [vm_compute; lia|]). }
  apply Hany. intros row column v. by rewrite lookup_empty.
Qed.

(** The rows from the one after the last item on hold the total block
    only. *)
Lemma rendered_below_items env now details filename wb row column :
  create_invoice env now details = Ok (filename, wb) →
  11 + length (items details) ≤ row →
  cells wb !! (row, column)
  = add_total_amount env (series_sum (Total_Price <$> items details))
      (11 + length (items details)) ∅ !! (row, column).
Proof.
  intros H Hrow. apply create_invoice_inv in H as (_ & _ & sh & Hw & -> & _).
  apply write_items_inv in Hw as (_ & _ & Hout & _).
  assert (Hsh : sh !! (row, column) = None).
  { rewrite Hout by lia.
    destruct (sheet_above_items env now details !! (row, column)) eqn:Hv; [|done].
    apply sheet_above_items_rows in Hv. lia. }
  unfold add_total_amount, set_cell.
  rewrite !lookup_insert. by rewrite Hsh, lookup_empty.
Qed.

Lemma rendered_max_row env now details filename wb :
  create_invoice env now details = Ok (filename, wb) →
  max_row (cells wb) = length (items details) + 18.
Proof.
  intros H. apply Nat.le_antisymm.
  - apply max_list_le, Forall_forall. intros r Hr.
    apply list_elem_of_fmap in Hr as ([row column] & -> & Hr).
    apply list_elem_of_fmap in Hr as ([[row' column'] v] & [= <- <-] & Hr).
    apply elem_of_map_to_list in Hr. simpl.
    destruct (decide (row ≤ length (items details) + 18)) as [|Hgt]; [done|].
    rewrite (rendered_below_items _ _ _ _ _ _ _ H) in Hr by lia.
    unfold add_total_amount, set_cell in Hr.
    rewrite !lookup_insert_ne in Hr by (intros [= ]; lia).
    by rewrite lookup_empty in Hr.
  - pose proof (rendered_total_row _ _ _ _ _ H) as (_ & _ & _ & _ & _ & _ & H7).
    apply max_row_ge in H7. lia.
Qed.

End Layout.

(** X8. Whatever the number of items, a rendered sheet keeps its fixed
    cells: the bill-to block, the invoice block with the invoice number
    ["KG "] followed by month, day and year, the five headers in row 9 and
    the book title alone in row 10; rows 5 and 8 stay empty. *)
Theorem fixed_cells_of_invoice (env : environ) (now : datetime)
    (details : invoice_details) (filename : string) (wb : workbook) :
  create_invoice env now details = Ok (filename, wb) →
  cells wb !! (6, 1) = Some (VStr "Bill To:")
  ∧ cells wb !! (6, 2) = Some (VStr (customer_name details))
  ∧ cells wb !! (7, 2) = Some (VStr (customer_address details))
  ∧ cells wb !! (1, 4) = Some (VStr "INVOICE")
  ∧ cells wb !! (3, 4) = Some (VStr "INVOICE NUMBER")
  ∧ cells wb !! (3, 5) = Some (VStr ("KG " +:+ strftime_mdy now))
  ∧ cells wb !! (4, 4) = Some (VStr "INVOICE DATE")
  ∧ cells wb !! (4, 5) = Some (VStr (invoice_date details))
  ∧ (∀ i header, itemized_header !! i = Some header →
       cells wb !! (9, S i) = Some (VStr header))
  ∧ cells wb !! (10, 2) = Some (VStr (book_title details))
  ∧ (∀ column, column ≠ 2 → cells wb !! (10, column) = None)
  ∧ (∀ column, cells wb !! (5, column) = None)
  ∧ (∀ column, cells wb !! (8, column) = None).
Proof.
  intros H.
  rewrite !(rendered_above_items _ _ _ _ _ _ _ H) by lia.
  split_and!; try reflexivity.
  - intros i header Hi.
    rewrite (rendered_above_items _ _ _ _ _ _ _ H) by lia.
    destruct i as [|[|[|[|[|i]]]]]; simpl in Hi; try done;
      injection Hi as <-; reflexivity.
  - intros column Hc.
    rewrite (rendered_above_items _ _ _ _ _ _ _ H) by lia.
    unfold sheet_above_items, add_header_information, set_ref, itemized_header.
    cbn [write_header]. unfold set_cell. rewrite !lookup_insert_ne; [apply lookup_empty|..];
      vm_compute coordinate; intros [= ]; lia.
  - intros column.
    rewrite (rendered_above_items _ _ _ _ _ _ _ H) by lia.
    unfold sheet_above_items, add_header_information, set_ref, itemized_header.
    cbn [write_header]. unfold set_cell. rewrite !lookup_insert_ne; [apply lookup_empty|..];
      vm_compute coordinate; intros [= ]; lia.
  - intros column.
    rewrite (rendered_above_items _ _ _ _ _ _ _ H) by lia.
    unfold sheet_above_items, add_header_information, set_ref, itemized_header.
    cbn [write_header]. unfold set_cell. rewrite !lookup_insert_ne; [apply lookup_empty|..];
      vm_compute coordinate; intros [= ]; lia.
Qed.

Lemma fixed_cells_of_invoice_witness :
  cells sample_workbook !! (6, 1) = Some (VStr "Bill To:")
  ∧ cells sample_workbook !! (6, 2) = Some (VStr (customer_name sample_details))
  ∧ cells sample_workbook !! (7, 2) = Some (VStr (customer_address sample_details))
  ∧ cells sample_workbook !! (1, 4) = Some (VStr "INVOICE")
  ∧ cells sample_workbook !! (3, 4) = Some (VStr "INVOICE NUMBER")
  ∧ cells sample_workbook !! (3, 5) = Some (VStr ("KG " +:+ strftime_mdy sample_now))
  ∧ cells sample_workbook !! (4, 4) = Some (VStr "INVOICE DATE")
  ∧ cells sample_workbook !! (4, 5) = Some (VStr (invoice_date sample_details))
  ∧ (∀ i header, itemized_header !! i = Some header →
       cells sample_workbook !! (9, S i) = Some (VStr header))
  ∧ cells sample_workbook !! (10, 2) = Some (VStr (book_title sample_details))
  ∧ (∀ column, column ≠ 2 → cells sample_workbook !! (10, column) = None)
  ∧ (∀ column, cells sample_workbook !! (5, column) = None)
  ∧ (∀ column, cells sample_workbook !! (8, column) = None).
Proof.
  apply (fixed_cells_of_invoice sample_env sample_now sample_details
           sample_filename).
  exact sample_rendering.
Defined.

Lemma title_go_length (s : string) b :
  String.length (Str.title_go b s) = String.length s.
Proof.
  revert b. induction s as [|c s IH]; intros b; simpl; [done|]. by rewrite IH.
Qed.

Lemma title_go_get (s : string) :
  ∀ b i c, String.get i s = Some c →
    String.get i (Str.title_go b s)
    = Some (if match i with O => b | S _ => follows_letter i s end
            then Str.to_lower c else Str.to_upper c).
Proof.
  induction s as [|c0 s IH]; intros b i c Hi; [by destruct i|].
  destruct i as [|i]; simpl in Hi.
  - injection Hi as ->. reflexivity.
  - cbn [Str.title_go String.get]. rewrite (IH _ _ _ Hi).
    destruct i as [|i]; [reflexivity|].
    unfold follows_letter. cbn [String.get]. reflexivity.
Qed.

Lemma title_title_case (s : string) : title_case_of s (Str.title s).
Proof.
  split; [apply title_go_length|].
  intros i c Hi. unfold Str.title. rewrite (title_go_get _ _ _ _ Hi).
  by destruct i.
Qed.

(** X9. The row of the [i]-th item repeats the invoice date in column
    A, holds a text in column B and the rate as a two-decimal currency
    text in column D, and has no cell beyond column E.  For a work type
    made of ASCII characters the text of column B is the work type in
    title case; for the work types of [DEFAULT_RATES] it is
    ["Audiobook Editing"], ["Audiobook Proofing"] and ["Extra Editing"]. *)
Theorem item_row_of_invoice (env : environ) (now : datetime)
    (details : invoice_details) (filename : string) (wb : workbook)
    (i : nat) (it : item) :
  create_invoice env now details = Ok (filename, wb) →
  items details !! i = Some it →
  cells wb !! (11 + i, 1) = Some (VStr (invoice_date details))
  ∧ (∃ t, cells wb !! (11 + i, 2) = Some (VStr t)
          ∧ (ascii_text (Type_of_Work it) = true →
             title_case_of (Type_of_Work it) t)
          ∧ (Type_of_Work it = "audiobook editing" → t = "Audiobook Editing")
          ∧ (Type_of_Work it = "audiobook proofing" → t = "Audiobook Proofing")
          ∧ (Type_of_Work it = "extra editing" → t = "Extra Editing"))
  ∧ cells wb !! (11 + i, 4) = Some (VStr ("$" +:+ F64.format_2f (Hourly_Rate it)))
  ∧ (∀ column, 5 < column → cells wb !! (11 + i, column) = None).
Proof.
  intros H Hi.
  pose proof (rendered_item_row _ _ _ _ _ _ _ H Hi) as (H1 & H2 & _ & H4 & _).
  split_and!; [exact H1| |exact H4|].
  - exists (Str.title (Type_of_Work it)).
    split_and!; [exact H2| |by intros ->..].
    intros _. apply title_title_case.
  - intros column Hc.
    destruct (cells wb !! (11 + i, column)) as [v|] eqn:Hv; [|done].
    apply (rendered_in_grid _ _ _ _ _ H) in Hv. lia.
Qed.

Lemma item_row_of_invoice_witness :
  cells sample_workbook !! (11 + 0, 1) = Some (VStr (invoice_date sample_details))
  ∧ (∃ t, cells sample_workbook !! (11 + 0, 2) = Some (VStr t)
          ∧ (ascii_text "audiobook editing" = true →
             title_case_of "audiobook editing" t)
          ∧ ("audiobook editing" = "audiobook editing" → t = "Audiobook Editing")
          ∧ ("audiobook editing" = "audiobook proofing" → t = "Audiobook Proofing")
          ∧ ("audiobook editing" = "extra editing" → t = "Extra Editing"))
  ∧ cells sample_workbook !! (11 + 0, 4)
    = Some (VStr ("$" +:+ F64.format_2f (F64.of_Z 50)))
  ∧ (∀ column, 5 < column → cells sample_workbook !! (11 + 0, column) = None).
Proof.
  apply (item_row_of_invoice sample_env sample_now sample_details sample_filename
           sample_workbook 0
           (Item "audiobook editing" (F64.of_Z 2) (F64.of_Z 50) (F64.of_Z 100))).
  - exact sample_rendering.
  - reflexivity.
Defined.

(** X10. A rendered sheet has at least one item row and ends at row 18
    plus the number of items; the row after the last item and the third
    row after it are empty, the TOTAL row holds columns D and E only, and
    the row below it column E only. *)
Theorem rows_of_invoice (env : environ) (now : datetime)
    (details : invoice_details) (filename : string) (wb : workbook) :
  create_invoice env now details = Ok (filename, wb) →
  let n := length (items details) in
  1 ≤ n
  ∧ max_row (cells wb) = n + 18
  ∧ (∀ column, cells wb !! (11 + n, column) = None)
  ∧ (∀ column, cells wb !! (11 + n + 3, column) = None)
  ∧ (∀ column, column ≠ 4 → column ≠ 5 → cells wb !! (11 + n + 1, column) = None)
  ∧ (∀ column, column ≠ 5 → cells wb !! (11 + n + 2, column) = None).
Proof.
  intros H n. split_and!.
  - apply create_invoice_completes in H as [Hne _]. subst n.
    destruct (items details); [done|simpl; lia].
  - by eapply rendered_max_row.
  - intros column. rewrite (rendered_below_items _ _ _ _ _ _ _ H) by (subst n; lia).
    unfold add_total_amount, set_cell.
    rewrite !lookup_insert_ne by (intros [= ]; lia). apply lookup_empty.
  - intros column. rewrite (rendered_below_items _ _ _ _ _ _ _ H) by (subst n; lia).
    unfold add_total_amount, set_cell.
    rewrite !lookup_insert_ne by (intros [= ]; lia). apply lookup_empty.
  - intros column H4 H5.
    rewrite (rendered_below_items _ _ _ _ _ _ _ H) by (subst n; lia).
    unfold add_total_amount, set_cell.
    rewrite !lookup_insert_ne by (intros [= ]; lia). apply lookup_empty.
  - intros column H5.
    rewrite (rendered_below_items _ _ _ _ _ _ _ H) by (subst n; lia).
    unfold add_total_amount, set_cell.
    rewrite !lookup_insert_ne by (intros [= ]; lia). apply lookup_empty.
Qed.

Lemma rows_of_invoice_witness :
  1 ≤ length (items sample_details)
  ∧ max_row (cells sample_workbook) = length (items sample_details) + 18
  ∧ (∀ column,
       cells sample_workbook !! (11 + length (items sample_details), column) = None)
  ∧ (∀ column,
       cells sample_workbook !! (11 + length (items sample_details) + 3, column)
       = None)
  ∧ (∀ column, column ≠ 4 → column ≠ 5 →
       cells sample_workbook !! (11 + length (items sample_details) + 1, column)
       = None)
  ∧ (∀ column, column ≠ 5 →
       cells sample_workbook !! (11 + length (items sample_details) + 2, column)
       = None).
Proof.
  apply (rows_of_invoice sample_env sample_now sample_details sample_filename).
  exact sample_rendering.
Defined.

(** ** The whole program *)

Section Program.

Implicit Types (env : environ) (now : datetime) (w : world).

Lemma main_any env now w :
  main env now w
  = match get_invoice_details w with
    | (Ok details, w1) =>
        match create_invoice env now details with
        | Ok (filename, wb) =>
            (Ok (filename, wb),
             World (stdin w1) (stdout w1 ++ [confirmation filename]))
        | Raise e => (Raise e, w1)
        end
    | (Raise e, w1) => (Raise e, w1)
    end.
Proof.
  unfold main, mbind at 1, io_bind.
  destruct (get_invoice_details w) as [[details|e] w1]; [|done].
  unfold mbind at 1, io_bind, lift.
  destruct (create_invoice env now details) as [[filename wb]|e]; done.
Qed.

End Program.

(** X11. When [main] completes, the first four lines of the input are
    the customer name, address, date and book title found in cells B6,
    B7, E4 and B10; the file name is built from the name and the date; the
    last thing written is the confirmation naming that file; and the sheet
    ends between rows 19 and 21. *)
Theorem main_outcome (env : environ) (now : datetime) (w w' : world)
    (filename : string) (wb : workbook) :
  main env now w = (Ok (filename, wb), w') →
  ∃ name address date title rest said,
    stdin w = name :: address :: date :: title :: rest
    ∧ filename
      = "invoice_" +:+ spaces_to_underscores name +:+ "_" +:+ date +:+ "_"
          +:+ strftime_Ymd now +:+ ".xlsx"
    ∧ stdout w' = stdout w ++ header_prompts ++ said ++ [confirmation filename]
    ∧ cells wb !! (6, 2) = Some (VStr name)
    ∧ cells wb !! (7, 2) = Some (VStr address)
    ∧ cells wb !! (4, 5) = Some (VStr date)
    ∧ cells wb !! (10, 2) = Some (VStr title)
    ∧ 19 ≤ max_row (cells wb) ≤ 21.
Proof.
  rewrite main_any. intros H.
  pose proof (get_invoice_details_any w) as Hany.
  destruct (get_invoice_details w) as [[details|e] w1]; [|done].
  destruct Hany as (name & address & date & title & rest & Hin & Hd & Hitems).
  destruct (create_invoice env now details) as [[f wb']|e] eqn:Hc; [|done].
  injection H as -> -> <-.
  pose proof (get_items_any DEFAULT_RATES (World rest (stdout w ++ header_prompts)))
    as Hcol.
  rewrite Hitems in Hcol.
  destruct Hcol as (consumed & new & said & _ & _ & Hnew & Hsub & _ & Hout & _).
  simpl in Hnew, Hout.
  exists name, address, date, title, rest, said.
  assert (Hn : customer_name details = name) by (by rewrite Hd).
  assert (Ha : customer_address details = address) by (by rewrite Hd).
  assert (Hdt : invoice_date details = date) by (by rewrite Hd).
  assert (Ht : book_title details = title) by (by rewrite Hd).
  pose proof (create_invoice_inv _ _ _ _ _ Hc) as (Hne & Hf & _).
  split_and!.
  - done.
  - rewrite Hf. unfold invoice_filename. by rewrite replace_space, Hn, Hdt.
  - simpl. by rewrite Hout, <-!app_assoc.
  - rewrite (rendered_above_items _ _ _ _ _ _ _ Hc) by lia. by rewrite <-Hn.
  - rewrite (rendered_above_items _ _ _ _ _ _ _ Hc) by lia. by rewrite <-Ha.
  - rewrite (rendered_above_items _ _ _ _ _ _ _ Hc) by lia. by rewrite <-Hdt.
  - rewrite (rendered_above_items _ _ _ _ _ _ _ Hc) by lia. by rewrite <-Ht.
  - rewrite (rendered_max_row _ _ _ _ _ Hc).
    destruct (items details); [done|]. simpl. lia.
  - rewrite (rendered_max_row _ _ _ _ _ Hc).
    rewrite Hnew. apply sublist_length in Hsub.
    rewrite length_fmap in Hsub. simpl in Hsub. lia.
Qed.

Lemma main_outcome_witness :
  ∃ name address date title rest said,
    stdin (World sample_input []) = name :: address :: date :: title :: rest
    ∧ sample_filename
      = "invoice_" +:+ spaces_to_underscores name +:+ "_" +:+ date +:+ "_"
          +:+ strftime_Ymd sample_now +:+ ".xlsx"
    ∧ stdout sample_world_end
      = stdout (World sample_input []) ++ header_prompts ++ said
          ++ [confirmation sample_filename]
    ∧ cells sample_workbook !! (6, 2) = Some (VStr name)
    ∧ cells sample_workbook !! (7, 2) = Some (VStr address)
    ∧ cells sample_workbook !! (4, 5) = Some (VStr date)
    ∧ cells sample_workbook !! (10, 2) = Some (VStr title)
    ∧ 19 ≤ max_row (cells sample_workbook) ≤ 21.
Proof.
  apply (main_outcome sample_env sample_now (World sample_input [])
           sample_world_end sample_filename sample_workbook).
  vm_compute. reflexivity.
Defined.

(** X12. When [main] raises, nothing is written after the prompts of the
    collector and no confirmation is printed: either the input ran out
    while the details were collected ([EOFError], fewer than ten lines),
    or the details were collected and the exception is the one raised by
    [create_invoice] for them. *)
Theorem main_raises (env : environ) (now : datetime) (w w' : world) (e : exn) :
  main env now w = (Raise e, w') →
  (get_invoice_details w = (Raise e, w')
   ∧ e = EOFError ∧ stdin w' = [] ∧ length (stdin w) < 10)
  ∨ ∃ details,
      get_invoice_details w = (Ok details, w')
      ∧ create_invoice env now details = Raise e.
Proof.
  rewrite main_any. intros H.
  pose proof (get_invoice_details_any w) as Hany.
  destruct (get_invoice_details w) as [[details|e'] w1].
  - right. destruct (create_invoice env now details) as [[f wb]|e'] eqn:Hc; [done|].
    injection H as -> ->. by exists details.
  - left. injection H as -> ->. by destruct Hany as (-> & ? & ?).
Qed.

Lemma main_raises_witness :
  (get_invoice_details
     (World ["Jane Doe"; "1 Main St"; "2024-03-01"; "Sample Title";
             "no"; "no"; "no"] [])
   = (Raise (KeyError "Total Price"),
      World [] (header_prompts ++ (question <$> Dict.keys DEFAULT_RATES)))
   ∧ KeyError "Total Price" = EOFError
   ∧ stdin (World [] (header_prompts ++ (question <$> Dict.keys DEFAULT_RATES))) = []
   ∧ length (stdin (World ["Jane Doe"; "1 Main St"; "2024-03-01"; "Sample Title";
                           "no"; "no"; "no"] [])) < 10)
  ∨ ∃ details,
      get_invoice_details
        (World ["Jane Doe"; "1 Main St"; "2024-03-01"; "Sample Title";
                "no"; "no"; "no"] [])
      = (Ok details,
         World [] (header_prompts ++ (question <$> Dict.keys DEFAULT_RATES)))
      ∧ create_invoice sample_env sample_now details
        = Raise (KeyError "Total Price").
Proof.
  apply (main_raises sample_env sample_now
           (World ["Jane Doe"; "1 Main St"; "2024-03-01"; "Sample Title";
                   "no"; "no"; "no"] [])).
  vm_compute. reflexivity.
Defined.

(** ** The file name and the amounts *)

Lemma spaces_to_underscores_no_space (s : string) :
  " "%char ∉ list_ascii_of_string (spaces_to_underscores s).
Proof.
  induction s as [|c s IH]; simpl.
  - apply not_elem_of_nil.
  - apply not_elem_of_cons. split; [|done].
    destruct (Ascii.eqb_spec c " ") as [->|Hne]; [done|]. congruence.
Qed.

Lemma spaces_to_underscores_id (s : string) :
  " "%char ∉ list_ascii_of_string s → spaces_to_underscores s = s.
Proof.
  induction s as [|c s IH]; simpl; [done|].
  intros [Hc Hs]%not_elem_of_cons.
  destruct (Ascii.eqb_spec c " ") as [->|Hne]; [done|]. by rewrite IH.
Qed.

(** X14. In the file name the part taken from the customer name has the
    length of the name and holds no space; a name without spaces is used
    as it is.  The invoice date is used as typed. *)
Theorem filename_has_no_space_from_name (env : environ) (now : datetime)
    (details : invoice_details) (filename : string) (wb : workbook) :
  create_invoice env now details = Ok (filename, wb) →
  ∃ customer,
    filename = "invoice_" +:+ customer +:+ "_" +:+ invoice_date details +:+ "_"
                 +:+ strftime_Ymd now +:+ ".xlsx"
    ∧ String.length customer = String.length (customer_name details)
    ∧ (" "%char ∉ list_ascii_of_string customer)
    ∧ ((" "%char ∉ list_ascii_of_string (customer_name details)) →
       customer = customer_name details).
Proof.
  intros H. apply create_invoice_inv in H as (_ & -> & _).
  exists (spaces_to_underscores (customer_name details)).
  split_and!.
  - unfold invoice_filename. by rewrite replace_space.
  - apply spaces_to_underscores_length.
  - apply spaces_to_underscores_no_space.
  - apply spaces_to_underscores_id.
Qed.

Lemma filename_has_no_space_from_name_witness :
  ∃ customer,
    sample_filename
    = "invoice_" +:+ customer +:+ "_" +:+ invoice_date sample_details +:+ "_"
        +:+ strftime_Ymd sample_now +:+ ".xlsx"
    ∧ String.length customer = String.length (customer_name sample_details)
    ∧ (" "%char ∉ list_ascii_of_string customer)
    ∧ ((" "%char ∉ list_ascii_of_string (customer_name sample_details)) →
       customer = customer_name sample_details).
Proof.
  apply (filename_has_no_space_from_name sample_env sample_now sample_details
           sample_filename sample_workbook).
  exact sample_rendering.
Defined.

Section Cents.

Local Open Scope Z_scope.

(** The hundredths shown are the nearest to a hundred times the value,
    a tie going to the even one. *)
Lemma cents_nearest (m : positive) (e : Z) :
  0 ≤ F64.cents m e
  ∧ (0 ≤ e → F64.cents m e = 100 * Zpos m * 2 ^ e)
  ∧ (e < 0 →
     Z.abs (2 * (100 * Zpos m - F64.cents m e * 2 ^ (- e))) ≤ 2 ^ (- e)
     ∧ (Z.abs (2 * (100 * Zpos m - F64.cents m e * 2 ^ (- e))) = 2 ^ (- e) →
        Z.even (F64.cents m e) = true)).
Proof.
  unfold F64.cents. destruct e as [|p|p].
  - split_and!; [lia|intros; lia|lia].
  - assert (0 < 2 ^ Zpos p) by (apply Z.pow_pos_nonneg; lia).
    split_and!; [nia|intros; lia|lia].
  - rewrite Z.pow_pos_fold.
    change (- Zneg p) with (Zpos p).
    set (den := 2 ^ Zpos p). set (num := Zpos m * 100).
    assert (Hden : 0 < den) by (apply Z.pow_pos_nonneg; lia).
    pose proof (Z.div_mod num den ltac:(lia)) as Hdm.
    pose proof (Z.mod_pos_bound num den Hden) as Hmod.
    assert (Hq : 0 ≤ num / den) by (apply Z.div_pos; lia).
    set (q := num / den) in *. set (r := num mod den) in *.
    assert (Hnum : 100 * Zpos m = den * q + r) by lia.
    destruct (Z.compare_spec (2 * r) den) as [Heq|Hlt|Hgt].
    + destruct (Z.even q) eqn:Hev.
      * split_and!; [lia|lia|intros _]. split; [|done].
        rewrite Hnum. lia.
      * split_and!; [lia|lia|intros _].
        assert (Hev' : Z.even (q + 1) = true).
        { rewrite Z.even_add, Hev. done. }
        split; [|done]. rewrite Hnum. lia.
    + split_and!; [lia|lia|intros _]. split; [rewrite Hnum; lia|].
      rewrite Hnum. lia.
    + split_and!; [lia|lia|intros _]. split; [rewrite Hnum; lia|].
      rewrite Hnum. lia.
Qed.

End Cents.

(** X13. The amount shown for a finite float is within half a cent of
    its value: the hundredths are exact for a non-negative exponent and
    otherwise the nearest integer to a hundred times the value, a tie
    going to the even one; the sign is shown even when the hundredths
    are zero. *)
Theorem currency_within_half_a_cent (s : bool) (m : positive) (e : Z) :
  currency (S754_finite s m e)
  = "$" +:+ (if s then "-" else "") +:+ pretty (F64.cents m e / 100)%Z +:+ "."
      +:+ F64.two_digits (F64.cents m e mod 100)%Z
  ∧ shown_cents (S754_finite s m e) = Some (cond_Zopp s (F64.cents m e))
  ∧ (0 ≤ F64.cents m e)%Z
  ∧ ((0 ≤ e)%Z → F64.cents m e = (100 * Zpos m * 2 ^ e)%Z)
  ∧ ((e < 0)%Z →
     (Z.abs (2 * (100 * Zpos m - F64.cents m e * 2 ^ (- e))) ≤ 2 ^ (- e))%Z
     ∧ (Z.abs (2 * (100 * Zpos m - F64.cents m e * 2 ^ (- e))) = (2 ^ (- e))%Z →
        Z.even (F64.cents m e) = true)).
Proof.
  split; [by destruct s|]. split; [done|]. apply cents_nearest.
Qed.

Lemma whole_hours_all :
  forallb whole_hours_ok (seq 0 200) = true.
Proof. vm_compute. reflexivity. Qed.

(** X15. Whole hours from 0 to 199, typed as a decimal numeral, are read
    exactly (the value of the float is the number typed), render as the
    hours padded to two digits followed by [":00:00"], and give the totals
    [50 n] and [25 n] with [".00"] at the rates of 50 and 25 an hour. *)
Theorem whole_hours_render (n : nat) :
  n < 200 →
  ∃ hours,
    F64.of_str (pretty n) = Ok hours
    ∧ whole_value hours = Some (Z.of_nat n)
    ∧ run_time hours = Ok (Str.format_02 (Z.of_nat n) +:+ ":00:00")
    ∧ currency (F64.mul hours (F64.of_Z 50)) = "$" +:+ pretty (50 * n) +:+ ".00"
    ∧ currency (F64.mul hours (F64.of_Z 25)) = "$" +:+ pretty (25 * n) +:+ ".00".
Proof.
  intros Hn. pose proof whole_hours_all as Hall.
  rewrite forallb_forall in Hall. specialize (Hall n).
  assert (Hin : In n (seq 0 200)) by (apply in_seq; lia).
  apply Hall in Hin. unfold whole_hours_ok in Hin.
  destruct (F64.of_str (pretty n)) as [hours|e]; [|done].
  exists hours. split; [done|].
  apply andb_prop in Hin as [Hin H25]. apply andb_prop in Hin as [Hin H50].
  apply andb_prop in Hin as [Hv Ht].
  destruct (whole_value hours) as [z|]; [|done].
  apply Z.eqb_eq in Hv.
  destruct (run_time hours) as [time|e]; [|done].
  apply String.eqb_eq in Ht, H50, H25. by subst.
Qed.

Lemma whole_hours_render_witness :
  ∃ hours,
    F64.of_str (pretty 40) = Ok hours
    ∧ whole_value hours = Some (Z.of_nat 40)
    ∧ run_time hours = Ok (Str.format_02 (Z.of_nat 40) +:+ ":00:00")
    ∧ currency (F64.mul hours (F64.of_Z 50)) = "$" +:+ pretty (50 * 40) +:+ ".00"
    ∧ currency (F64.mul hours (F64.of_Z 25)) = "$" +:+ pretty (25 * 40) +:+ ".00".
Proof. apply (whole_hours_render 40). lia. Defined.



